(** * Synthetic marketplace data generator: user profiles and funnel events

    A shallow embedding of [src/generator/users.py] (class [UserGenerator])
    and [src/generator/events.py] (class [EventGenerator]).

    - Python [float] constants are read as exact rationals ([Q]), and a
      value of [np.random.random()] is the multiple of 2^-53 it is.  The
      statements about sessions hold for either outcome of each
      comparison of a draw with a rate; the comparisons between constants
      are recomputed on IEEE doubles at the end ([segment_tests_agree],
      [rate_tests_agree]) with the same outcome.
    - [datetime] values are naive instants counted in seconds ([Z]), [date]
      values are counted in days, a [timedelta] is a number of seconds.
    - The module-level state the code reads and writes (numpy's global
      generator, Faker's generator, the entropy behind [uuid.uuid4], the
      clock behind [datetime.now], the interpreter's string hash) is one
      record [World], threaded through a state-and-exception monad [M].
    - A pandas [DataFrame] is the ordered list of its rows. *)

From Stdlib Require Import ZArith QArith List String Bool Lia Lqa.
From Stdlib Require Import Floats.
From Stdlib Require Import Sorting.Sorted.
Import ListNotations.

Set Implicit Arguments.
Open Scope string_scope.
Open Scope Z_scope.

(** ** Exceptions and the monad *)

Inductive exn : Type :=
| KeyError (key : string)
| ValueError (msg : string)
| IndexError.

Inductive result (A : Type) : Type :=
| Ok (a : A)
| Raise (e : exn).
Arguments Ok {A} a.
Arguments Raise {A} e.

(** The state outside the program text.

    [np_table seed i] is the outcome of the [i]-th draw made from numpy's
    global generator after [np.random.seed(seed)]; [faker_table] is the same
    for Faker's provider calls.  [entropy] feeds [uuid.uuid4] and is not
    touched by either seed.  [py_hash] is the built-in [hash] on [str] of
    the running interpreter. *)
Record World : Type := mkWorld {
  np_table : Z -> nat -> Z;
  np_seed : Z;
  np_pos : nat;
  faker_table : Z -> nat -> string;
  faker_seed : Z;
  faker_pos : nat;
  entropy : nat -> string;
  entropy_pos : nat;
  clock : nat -> Z;
  clock_pos : nat;
  py_hash : string -> Z
}.

Definition M (A : Type) : Type := World -> result (A * World).

Definition ret {A} (a : A) : M A := fun w => Ok (a, w).

Definition bind {A B} (m : M A) (k : A -> M B) : M B :=
  fun w => match m w with
           | Ok (a, w') => k a w'
           | Raise e => Raise e
           end.

Definition raise {A} (e : exn) : M A := fun _ => Raise e.

Notation "x <- m ;; k" := (bind m (fun x => k))
  (at level 61, m at next level, right associativity).

(** ** Primitives of the libraries the generators call *)

(** [np.random.seed(seed)] *)
Definition np_random_seed (seed : Z) : M unit := fun w =>
  Ok (tt, mkWorld (np_table w) seed 0 (faker_table w) (faker_seed w)
            (faker_pos w) (entropy w) (entropy_pos w) (clock w) (clock_pos w)
            (py_hash w)).

(** [Faker.seed(seed)] *)
Definition Faker_seed (seed : Z) : M unit := fun w =>
  Ok (tt, mkWorld (np_table w) (np_seed w) (np_pos w) (faker_table w) seed 0
            (entropy w) (entropy_pos w) (clock w) (clock_pos w) (py_hash w)).

(** The state after one more draw from numpy's generator. *)
Definition np_step (w : World) : World :=
  mkWorld (np_table w) (np_seed w) (S (np_pos w)) (faker_table w)
    (faker_seed w) (faker_pos w) (entropy w) (entropy_pos w) (clock w)
    (clock_pos w) (py_hash w).

(** One outcome of numpy's generator. *)
Definition np_next : M Z := fun w =>
  Ok (np_table w (np_seed w) (np_pos w), np_step w).

(** [np.random.randint(low, high)]: an integer of [low, high), and
    [ValueError] when the interval is empty. *)
Definition randint (low high : Z) : M Z :=
  if low <? high
  then (r <- np_next ;; ret (low + r mod (high - low)))
  else raise (ValueError "low >= high").

(** [np.random.random()]: a multiple of 2^-53 in [0, 1). *)
Definition random : M Q :=
  r <- np_next ;; ret (Qmake (r mod 2 ^ 53) (2 ^ 53)).

Definition Qlt_bool (x y : Q) : bool := negb (Qle_bool y x).

Fixpoint cumsum (acc : Q) (p : list Q) : list Q :=
  match p with
  | [] => []
  | x :: p' => (acc + x)%Q :: cumsum (acc + x)%Q p'
  end.

(** [cdf.searchsorted(u, side='right')] on an ascending [cdf] *)
Fixpoint searchsorted_right (cdf : list Q) (u : Q) : nat :=
  match cdf with
  | [] => O
  | c :: cdf' => if Qle_bool c u then S (searchsorted_right cdf' u) else O
  end.

(** [np.random.choice(a, p=p)]: one uniform draw, inverted through the
    normalised cumulative distribution. *)
Definition choice_p {A} (a : list A) (p : list Q) : M A :=
  u <- random ;;
  let cdf := cumsum 0 p in
  let total := last cdf 1%Q in
  let idx := searchsorted_right (map (fun c => (c / total)%Q) cdf) u in
  match nth_error a idx with
  | Some x => ret x
  | None => raise IndexError
  end.

(** [np.random.choice(a)]: a uniform index into [a]. *)
Definition choice {A} (a : list A) : M A :=
  idx <- randint 0 (Z.of_nat (List.length a)) ;;
  match nth_error a (Z.to_nat idx) with
  | Some x => ret x
  | None => raise IndexError
  end.

(** [str(uuid.uuid4())] *)
Definition uuid4 : M string := fun w =>
  Ok (entropy w (entropy_pos w),
      mkWorld (np_table w) (np_seed w) (np_pos w) (faker_table w)
        (faker_seed w) (faker_pos w) (entropy w) (S (entropy_pos w)) (clock w)
        (clock_pos w) (py_hash w)).

(** A Faker provider call ([fake.city()], [fake.name()]). *)
Definition fake_next : M string := fun w =>
  Ok (faker_table w (faker_seed w) (faker_pos w),
      mkWorld (np_table w) (np_seed w) (np_pos w) (faker_table w)
        (faker_seed w) (S (faker_pos w)) (entropy w) (entropy_pos w) (clock w)
        (clock_pos w) (py_hash w)).

Definition fake_city : M string := fake_next.
Definition fake_name : M string := fake_next.

(** [datetime.now()] *)
Definition datetime_now : M Z := fun w =>
  Ok (clock w (clock_pos w),
      mkWorld (np_table w) (np_seed w) (np_pos w) (faker_table w)
        (faker_seed w) (faker_pos w) (entropy w) (entropy_pos w) (clock w)
        (S (clock_pos w)) (py_hash w)).

(** [hash(s)] on a [str] *)
Definition hash (s : string) : M Z := fun w => Ok (py_hash w s, w).

(** ** Dates *)

Definition SECONDS_PER_DAY : Z := 86400.

(** [timedelta(days=d)] *)
Definition timedelta_days (d : Z) : Z := d * SECONDS_PER_DAY.

(** [dt.date()], as a day number *)
Definition date_of (dt : Z) : Z := dt / SECONDS_PER_DAY.

(** [(a - b).days] for two instants *)
Definition days_between_instants (a b : Z) : Z := (a - b) / SECONDS_PER_DAY.

(** [pd.to_datetime(d)] for a date: midnight of that day *)
Definition to_datetime (d : Z) : Z := d * SECONDS_PER_DAY.

(** [dt.replace(hour=h, minute=m, second=s)] on an instant without
    microseconds *)
Definition replace_hms (dt h m s : Z) : Z :=
  date_of dt * SECONDS_PER_DAY + h * 3600 + m * 60 + s.

(** ** Loops *)

(** [for _ in range(n): acc.append(body())] *)
Fixpoint for_range_append {A} (n : nat) (body : M A) (acc : list A) : M (list A) :=
  match n with
  | O => ret acc
  | S n' => x <- body ;; for_range_append n' body (acc ++ [x])%list
  end.

(** Stable insertion of a row by an integer key, and the sort it gives:
    [df.sort_values(key).reset_index(drop=True)] on a frame that has the
    column. *)
Fixpoint insert_by {A} (key : A -> Z) (x : A) (l : list A) : list A :=
  match l with
  | [] => [x]
  | y :: l' => if key x <=? key y then x :: y :: l' else y :: insert_by key x l'
  end.

Fixpoint sort_by {A} (key : A -> Z) (l : list A) : list A :=
  match l with
  | [] => []
  | x :: l' => insert_by key x (sort_by key l')
  end.

(** [pd.DataFrame(rows).sort_values(column).reset_index(drop=True)] for a
    frame built from a list of dicts: built from the empty list it has no
    column at all, and sorting by [column] raises [KeyError]. *)
Definition sort_values {A} (column : string) (key : A -> Z) (rows : list A)
  : M (list A) :=
  match rows with
  | [] => raise (KeyError column)
  | _ :: _ => ret (sort_by key rows)
  end.

(** ** Dictionaries with string keys *)

Fixpoint assoc {V} (k : string) (d : list (string * V)) : option V :=
  match d with
  | [] => None
  | (k', v) :: d' => if String.eqb k k' then Some v else assoc k d'
  end.

(** [d.get(k, default)] *)
Definition dict_get {V} (d : list (string * V)) (k : string) (default : V) : V :=
  match assoc k d with
  | Some v => v
  | None => default
  end.

(** [d[k]] *)
Definition getitem {V} (d : list (string * V)) (k : string) : M V :=
  match assoc k d with
  | Some v => ret v
  | None => raise (KeyError k)
  end.

(** A keyword argument with a default value. *)
Definition default_to {A} (arg : option A) (default : A) : A :=
  match arg with
  | Some a => a
  | None => default
  end.

(** * [users.py] *)

Module Users.

Record User : Type := mkUser {
  user_id : string;
  name : string;
  location : string;
  join_date : Z;                 (* a date, in days *)
  verified_neighborhood : bool;
  created_at : Z;                (* an instant, in seconds *)
  age_group : string;
  device_type : string;
  user_segment : option string   (* the column [generate_user_segments] adds *)
}.

(** [UserGenerator.__init__(seed=42)] *)
Definition init (seed : option Z) : M unit :=
  let seed := default_to seed 42 in
  _ <- Faker_seed seed ;;
  np_random_seed seed.

(** The body of the loop of [generate_users]. *)
Definition generate_user (start_date end_date : Z) : M User :=
  user_id <- uuid4 ;;
  let days_between := days_between_instants end_date start_date in
  random_days <- randint 0 (days_between + 1) ;;
  let join_date := start_date + timedelta_days random_days in
  u <- random ;;
  let verified_neighborhood := Qlt_bool u 0.7 in
  location <- fake_city ;;
  name <- fake_name ;;
  age_group <- choice_p ["18-24"; "25-34"; "35-44"; "45-54"; "55+"]
                        [0.15; 0.35; 0.25; 0.15; 0.10]%Q ;;
  device_type <- choice_p ["iOS"; "Android"] [0.45; 0.55]%Q ;;
  ret (mkUser user_id name location (date_of join_date) verified_neighborhood
         join_date age_group device_type None).

Definition generate_users (num_users : option Z) (start_date end_date : option Z)
  : M (list User) :=
  let num_users := default_to num_users 1000 in
  start_date <- match start_date with
                | None => now <- datetime_now ;; ret (now - timedelta_days 90)
                | Some d => ret d
                end ;;
  end_date <- match end_date with
              | None => datetime_now
              | Some d => ret d
              end ;;
  users <- for_range_append (Z.to_nat num_users)
             (generate_user start_date end_date) [] ;;
  sort_values "join_date" join_date users.

Definition age_multiplier : list (string * Q) :=
  [("18-24", 1.2); ("25-34", 1.3); ("35-44", 1.0); ("45-54", 0.8);
   ("55+", 0.6)]%Q.

(** The segment computed for one row of [generate_user_segments]. *)
Definition segment_of (row : User) : string :=
  let base_engagement := (if verified_neighborhood row then 0.5 else 0.3)%Q in
  let engagement_score :=
    (base_engagement * dict_get age_multiplier (age_group row) 1.0)%Q in
  if Qlt_bool 0.7 engagement_score then "high_engagement"
  else if Qlt_bool 0.4 engagement_score then "medium_engagement"
  else "low_engagement".

(** [df['user_segment'] = segments] on one row *)
Definition set_user_segment (row : User) (segment : string) : User :=
  mkUser (user_id row) (name row) (location row) (join_date row)
    (verified_neighborhood row) (created_at row) (age_group row)
    (device_type row) (Some segment).

Definition generate_user_segments (df : list User) : list User :=
  let segments := map segment_of df in
  map (fun rs => set_user_segment (fst rs) (snd rs)) (combine df segments).

End Users.

(** * [events.py] *)

Module Events.

Record Event : Type := mkEvent {
  event_id : string;
  user_id : string;
  session_id : string;
  event_type : string;
  event_timestamp : Z;
  ab_group : string;
  search_query : option string;
  item_id : option string;
  message_length : option Z
}.

(** The keys an [extra_data] dict can carry; [None] for an absent key. *)
Record ExtraData : Type := mkExtra {
  extra_search_query : option string;
  extra_item_id : option string;
  extra_message_length : option Z
}.

Definition EVENT_TYPES : list string :=
  ["page_view"; "search"; "item_view"; "chat_click"; "chat_send"].

Definition FUNNEL_RATES : list (string * Q) :=
  [("page_view_to_search", 0.60); ("search_to_item_view", 0.75);
   ("item_view_to_chat_click", 0.25); ("chat_click_to_chat_send", 0.80)]%Q.

(** [EventGenerator.__init__(seed=42)] *)
Definition init (seed : option Z) : M unit :=
  let seed := default_to seed 42 in
  np_random_seed seed.

Definition assign_ab_group (user_id : string) : M string :=
  hash_val <- hash user_id ;;
  let mod_val := hash_val mod 100 in
  if mod_val <? 20 then ret "control"
  else if mod_val <? 40 then ret "treatment"
  else ret "none".

Definition _create_event (user_id session_id event_type : string)
    (timestamp : Z) (ab_group : string) (extra_data : option ExtraData)
  : M Event :=
  event_id <- uuid4 ;;
  let event :=
    mkEvent event_id user_id session_id event_type timestamp ab_group
      None None None in
  match extra_data with
  | Some x =>
      ret (mkEvent event_id user_id session_id event_type timestamp ab_group
             (extra_search_query x) (extra_item_id x) (extra_message_length x))
  | None => ret event
  end.

Definition _generate_search_query : M string :=
  let queries :=
    ["아이폰"; "노트북"; "자전거"; "책상"; "의자"; "냉장고"; "세탁기";
     "에어컨"; "선풍기"; "전자레인지"; "청소기"; "운동화"; "패딩";
     "가방"; "시계"; "카메라"; "게임기"; "모니터"; "키보드"; "마우스"] in
  choice queries.

Definition segment_multiplier : list (string * Q) :=
  [("high_engagement", 1.3); ("medium_engagement", 1.0);
   ("low_engagement", 0.7)]%Q.

Definition generate_user_session (user_id user_segment : string)
    (session_start : Z) (ab_group : string) : M (list Event) :=
  let events := [] in
  session_id <- uuid4 ;;
  let current_time := session_start in
  let multiplier := dict_get segment_multiplier user_segment 1.0%Q in
  let treatment_boost :=
    (if String.eqb ab_group "treatment" then 1.4 else 1.0)%Q in
  e <- _create_event user_id session_id "page_view" current_time ab_group None ;;
  let events := (events ++ [e])%list in
  dt <- randint 5 30 ;;
  let current_time := current_time + dt in
  u <- random ;;
  rate <- getitem FUNNEL_RATES "page_view_to_search" ;;
  if Qlt_bool u (rate * multiplier) then
    query <- _generate_search_query ;;
    e <- _create_event user_id session_id "search" current_time ab_group
           (Some (mkExtra (Some query) None None)) ;;
    let events := (events ++ [e])%list in
    dt <- randint 3 15 ;;
    let current_time := current_time + dt in
    u <- random ;;
    rate <- getitem FUNNEL_RATES "search_to_item_view" ;;
    if Qlt_bool u (rate * multiplier) then
      item_id <- uuid4 ;;
      e <- _create_event user_id session_id "item_view" current_time ab_group
             (Some (mkExtra None (Some item_id) None)) ;;
      let events := (events ++ [e])%list in
      dt <- randint 10 60 ;;
      let current_time := current_time + dt in
      rate <- getitem FUNNEL_RATES "item_view_to_chat_click" ;;
      let chat_click_rate := (rate * multiplier * treatment_boost)%Q in
      u <- random ;;
      if Qlt_bool u chat_click_rate then
        e <- _create_event user_id session_id "chat_click" current_time
               ab_group (Some (mkExtra None (Some item_id) None)) ;;
        let events := (events ++ [e])%list in
        dt <- randint 2 10 ;;
        let current_time := current_time + dt in
        u <- random ;;
        rate <- getitem FUNNEL_RATES "chat_click_to_chat_send" ;;
        if Qlt_bool u (rate * multiplier) then
          len <- randint 10 200 ;;
          e <- _create_event user_id session_id "chat_send" current_time
                 ab_group (Some (mkExtra None (Some item_id) (Some len))) ;;
          ret (events ++ [e])%list
        else ret events
      else ret events
    else ret events
  else ret events.

Definition _get_hourly_distribution : list Q :=
  let probs :=
    [0.01; 0.01; 0.01; 0.01; 0.01; 0.01;
     0.02; 0.03; 0.04; 0.04; 0.04; 0.05;
     0.05; 0.04; 0.04; 0.04; 0.05; 0.06;
     0.08; 0.09; 0.10; 0.09; 0.07; 0.03]%Q in
  let sum := fold_left Qplus probs 0%Q in
  map (fun p => (p / sum)%Q) probs.

(** [range(n)] as a list *)
Definition range (n : nat) : list Z := map Z.of_nat (seq 0 n).

(** [for _ in range(num_sessions): ...] of [generate_events_for_users],
    with [all_events] the list the loop extends. *)
Fixpoint session_loop (num_sessions : nat) (user_id user_segment : string)
    (join_date : Z) (ab_group : string) (days_range : Z)
    (all_events : list Event) : M (list Event) :=
  match num_sessions with
  | O => ret all_events
  | S n =>
      now <- datetime_now ;;
      let days_since_join :=
        Z.min days_range (date_of now - date_of join_date) in
      if days_since_join <=? 0 then
        session_loop n user_id user_segment join_date ab_group days_range
          all_events
      else
        random_day <- randint 0 (days_since_join + 1) ;;
        let session_date := join_date + timedelta_days random_day in
        hour <- choice_p (range 24) _get_hourly_distribution ;;
        minute <- randint 0 60 ;;
        second <- randint 0 60 ;;
        let session_start := replace_hms session_date hour minute second in
        session_events <-
          generate_user_session user_id user_segment session_start ab_group ;;
        session_loop n user_id user_segment join_date ab_group days_range
          (all_events ++ session_events)%list
  end.

(** The body of [for _, user in users_df.iterrows(): ...]. *)
Definition events_for_user (user : Users.User) (events_per_user_range : Z * Z)
    (days_range : Z) (all_events : list Event) : M (list Event) :=
  let user_id := Users.user_id user in
  let user_segment := default_to (Users.user_segment user) "medium_engagement" in
  let join_date := to_datetime (Users.join_date user) in
  ab_group <- assign_ab_group user_id ;;
  num_sessions <-
    randint (fst events_per_user_range) (snd events_per_user_range) ;;
  session_loop (Z.to_nat num_sessions) user_id user_segment join_date ab_group
    days_range all_events.

Fixpoint user_loop (users_df : list Users.User) (events_per_user_range : Z * Z)
    (days_range : Z) (all_events : list Event) : M (list Event) :=
  match users_df with
  | [] => ret all_events
  | user :: rest =>
      all_events <-
        events_for_user user events_per_user_range days_range all_events ;;
      user_loop rest events_per_user_range days_range all_events
  end.

Definition generate_events_for_users (users_df : list Users.User)
    (events_per_user_range : option (Z * Z)) (days_range : option Z)
  : M (list Event) :=
  let events_per_user_range := default_to events_per_user_range (1, 5) in
  let days_range := default_to days_range 30 in
  all_events <- user_loop users_df events_per_user_range days_range [] ;;
  let events_df := all_events in
  if (0 <? List.length events_df)%nat
  then sort_values "event_timestamp" event_timestamp events_df
  else ret events_df.

End Events.

(** * [scripts/generate_data.py] *)

(** [df[column]] on a frame built from a list of dicts: built from the
    empty list the frame has no column and the lookup raises [KeyError]. *)
Definition column {A} (name : string) (rows : list A) : M unit :=
  match rows with
  | [] => raise (KeyError name)
  | _ :: _ => ret tt
  end.

(** [generate_data], up to the two tables it writes and returns.  The
    report between the calls reads the columns [verified_neighborhood] and
    [user_segment] of the user table and [event_type] and [ab_group] of
    the event table; what it prints and the files it writes are left
    out. *)
Definition generate_data (num_users : option Z)
  : M (list Users.User * list Events.Event) :=
  let num_users := default_to num_users 1000 in
  _ <- Users.init (Some 42) ;;
  users_df <- Users.generate_users (Some num_users) None None ;;
  let users_df := Users.generate_user_segments users_df in
  _ <- column "verified_neighborhood" users_df ;;
  _ <- column "user_segment" users_df ;;
  _ <- Events.init (Some 42) ;;
  events_df <-
    Events.generate_events_for_users users_df (Some (2, 10)) (Some 30) ;;
  _ <- column "event_type" events_df ;;
  _ <- column "ab_group" events_df ;;
  ret (users_df, events_df).

(** * Vocabulary of the statements *)

(** What no operation changes: the tables behind the generators, the
    entropy source, the clock and the interpreter's hash. *)
Definition frame (w w' : World) : Prop :=
  np_table w' = np_table w /\ faker_table w' = faker_table w /\
  entropy w' = entropy w /\ clock w' = clock w /\ py_hash w' = py_hash w.

(** [m] run in [w] raises nothing, and its value satisfies [post]. *)
Definition returns {A} (m : M A) (w : World) (post : A -> Prop) : Prop :=
  exists a w', m w = Ok (a, w') /\ frame w w' /\ post a.

(** The value of a run, without the final state. *)
Definition value_of {A} (r : result (A * World)) : option A :=
  match r with
  | Ok (a, _) => Some a
  | Raise _ => None
  end.

Section Vocabulary.

Import Events.

(** The five events of a session that runs the whole funnel. *)
Definition funnel (user_id session_id ab_group : string)
    (i0 i1 i2 i3 i4 query item : string) (len t0 t1 t2 t3 t4 : Z)
  : list Event :=
  [ mkEvent i0 user_id session_id "page_view" t0 ab_group None None None;
    mkEvent i1 user_id session_id "search" t1 ab_group (Some query) None None;
    mkEvent i2 user_id session_id "item_view" t2 ab_group None (Some item) None;
    mkEvent i3 user_id session_id "chat_click" t3 ab_group None (Some item) None;
    mkEvent i4 user_id session_id "chat_send" t4 ab_group None (Some item)
      (Some len) ].

(** The probabilities [generate_user_session] compares its draws with, in
    stage order: baseline rate, times the segment multiplier, times the
    treatment boost for the chat click. *)
Definition composed_rates (user_segment ab_group : string) : list Q :=
  let multiplier := dict_get segment_multiplier user_segment 1.0%Q in
  let treatment_boost :=
    (if String.eqb ab_group "treatment" then 1.4 else 1.0)%Q in
  [ dict_get FUNNEL_RATES "page_view_to_search" 0 * multiplier;
    dict_get FUNNEL_RATES "search_to_item_view" 0 * multiplier;
    dict_get FUNNEL_RATES "item_view_to_chat_click" 0 * multiplier
      * treatment_boost;
    dict_get FUNNEL_RATES "chat_click_to_chat_send" 0 * multiplier ]%Q.

(** How many stages fire in a row, given each stage's draw and rate. *)
Fixpoint funnel_depth (draws : list (Q * Q)) : nat :=
  match draws with
  | [] => O
  | (u, rate) :: rest =>
      if Qlt_bool u rate then S (funnel_depth rest) else O
  end.

Definition unit_draw (u : Q) : Prop := (0 <= u /\ u < 1)%Q.

(** What every session looks like: the first [n] events of a full funnel,
    spaced by the delays the code draws, where [n - 1] is the number of
    stages whose draw fell below the composed rate. *)
Definition session_post (user_id user_segment : string) (session_start : Z)
    (ab_group : string) (events : list Event) : Prop :=
  exists (n : nat) session_id i0 i1 i2 i3 i4 query item len t1 t2 t3 t4
         u1 u2 u3 u4,
    5 <= t1 - session_start < 30 /\ 3 <= t2 - t1 < 15 /\
    10 <= t3 - t2 < 60 /\ 2 <= t4 - t3 < 10 /\ 10 <= len < 200 /\
    unit_draw u1 /\ unit_draw u2 /\ unit_draw u3 /\ unit_draw u4 /\
    n = S (funnel_depth
             (combine [u1; u2; u3; u4] (composed_rates user_segment ab_group))) /\
    events = firstn n (funnel user_id session_id ab_group i0 i1 i2 i3 i4
                         query item len session_start t1 t2 t3 t4).


(** A user row whose missing segment is filled in with the default. *)
Definition with_default_segment (user : Users.User) : Users.User :=
  Users.set_user_segment user
    (default_to (Users.user_segment user) "medium_engagement").

End Vocabulary.

(** The segment rule in the words of the specification: the propensity of
    the verification flag, times the multiplier of the age group (1.0 for
    an age group outside the table, as in the code), classified by the two
    thresholds. *)
Definition engagement_score_spec (verified : bool) (age : string) : Q :=
  ((if verified then 0.5 else 0.3) *
   (if String.eqb age "18-24" then 1.2
    else if String.eqb age "25-34" then 1.3
    else if String.eqb age "35-44" then 1.0
    else if String.eqb age "45-54" then 0.8
    else if String.eqb age "55+" then 0.6
    else 1.0))%Q.

Definition classify_spec (score : Q) : string :=
  if Qlt_bool 0.7 score then "high_engagement"
  else if Qlt_bool 0.4 score then "medium_engagement"
  else "low_engagement".

(** The order of the user table. *)
Definition by_join_date (a b : Users.User) : Prop :=
  Users.join_date a <= Users.join_date b.

(** A user row without its identifier. *)
Definition without_user_id (user : Users.User) : Users.User :=
  Users.mkUser "" (Users.name user) (Users.location user)
    (Users.join_date user) (Users.verified_neighborhood user)
    (Users.created_at user) (Users.age_group user) (Users.device_type user)
    (Users.user_segment user).

(** ** Concrete inputs *)

(** A state of the world: draw [i] after seeding with [seed] is
    [seed + 7 * i], identifiers are "A", "B", ..., and the clock stands at
    01:00 on day 20000. *)
Definition example_world : World :=
  mkWorld (fun seed i => seed + 7 * Z.of_nat i) 42 0
    (fun _ _ => "name") 42 0
    (fun i => String (Ascii.ascii_of_nat (65 + i)) "") 0
    (fun _ => 20000 * 86400 + 3600) 0
    (fun s => Z.of_nat (String.length s)).

(** A second run of the interpreter on the same installation at the same
    time: the same generators, clock and hash, other values from
    [uuid.uuid4] ("a", "b", ...). *)
Definition second_run_world : World :=
  mkWorld (np_table example_world) 42 0 (faker_table example_world) 42 0
    (fun i => String (Ascii.ascii_of_nat (97 + i)) "") 0
    (clock example_world) 0 (py_hash example_world).


Definition user_joined_earlier : Users.User :=
  Users.mkUser "u-earlier" "name" "city" 19900 true (19900 * 86400) "25-34"
    "iOS" None.

(** ** The constants in binary64

    The comparisons of the code, computed on IEEE doubles. *)

(** The segment thresholds: for each verification flag and each age-group
    multiplier (1.0 also stands for an unknown age group), whether the
    score exceeds 0.7 and whether it exceeds 0.4. *)
Definition segment_tests_Q : list (bool * bool) :=
  map (fun bm => (Qlt_bool 0.7 (fst bm * snd bm),
                  Qlt_bool 0.4 (fst bm * snd bm)))
    (list_prod [0.5; 0.3] [1.2; 1.3; 1.0; 0.8; 0.6])%Q.

#[local] Set Warnings "-inexact-float".

Definition segment_tests_float : list (bool * bool) :=
  map (fun bm => (PrimFloat.ltb 0.7 (fst bm * snd bm),
                  PrimFloat.ltb 0.4 (fst bm * snd bm)))
    (list_prod [0.5; 0.3] [1.2; 1.3; 1.0; 0.8; 0.6])%float.

(** The composed probabilities: for each baseline rate, segment multiplier
    and treatment boost, whether the product exceeds 1. *)
Definition rate_tests_Q : list bool :=
  map (fun rmb => Qlt_bool 1 (fst (fst rmb) * snd (fst rmb) * snd rmb))
    (list_prod (list_prod [0.60; 0.75; 0.25; 0.80] [1.3; 1.0; 0.7])
       [1.4; 1.0])%Q.

Definition rate_tests_float : list bool :=
  map (fun rmb => PrimFloat.ltb 1 (fst (fst rmb) * snd (fst rmb) * snd rmb))
    (list_prod (list_prod [0.60; 0.75; 0.25; 0.80] [1.3; 1.0; 0.7])
       [1.4; 1.0])%float.

(** ** Vocabulary of the further properties *)

Section MoreVocabulary.

Import Events.

(** The list [_generate_search_query] chooses from. *)
Definition search_queries : list string :=
  ["아이폰"; "노트북"; "자전거"; "책상"; "의자"; "냉장고"; "세탁기";
   "에어컨"; "선풍기"; "전자레인지"; "청소기"; "운동화"; "패딩";
   "가방"; "시계"; "카메라"; "게임기"; "모니터"; "키보드"; "마우스"].

(** The optional fields an event carries, by its type. *)
Definition event_fields_ok (e : Event) : Prop :=
  (event_type e = "page_view" /\ search_query e = None /\
   item_id e = None /\ message_length e = None) \/
  (event_type e = "search" /\
   (exists q, search_query e = Some q /\ In q search_queries) /\
   item_id e = None /\ message_length e = None) \/
  ((event_type e = "item_view" \/ event_type e = "chat_click") /\
   search_query e = None /\ (exists item, item_id e = Some item) /\
   message_length e = None) \/
  (event_type e = "chat_send" /\ search_query e = None /\
   (exists item, item_id e = Some item) /\
   (exists len, message_length e = Some len /\ 10 <= len < 200)).

(** The group [assign_ab_group] gives an identifier under the hash [h]. *)
Definition ab_group_of (h : string -> Z) (user_id : string) : string :=
  if h user_id mod 100 <? 20 then "control"
  else if h user_id mod 100 <? 40 then "treatment"
  else "none".

(** One session of the event table of [users_df]: the session of one of
    the users, under the group of that user, started on a day from the
    join date on, at most [days_range] days later and not after the day
    some reading of the clock [c] shows. *)
Definition session_of (h : string -> Z) (c : nat -> Z)
    (users_df : list Users.User) (days_range : Z) (s : list Event) : Prop :=
  exists user session_start i,
    In user users_df /\
    session_post (Users.user_id user)
      (default_to (Users.user_segment user) "medium_engagement")
      session_start (ab_group_of h (Users.user_id user)) s /\
    Forall event_fields_ok s /\
    Users.join_date user <= date_of session_start /\
    date_of session_start <= Users.join_date user + days_range /\
    date_of session_start <= date_of (c i).

End MoreVocabulary.

Section TableVocabulary.

Import Events.

(** What holds of every event of the event table of [users_df]: it
    belongs to one of the users and carries the group of that user, its
    optional fields fit its type, and its instant is not before the
    user's join date, less than 112 seconds past the end of the last day
    of the user's range, and less than 112 seconds past the end of the day
    some reading of the clock [c] shows. *)
Definition event_of (h : string -> Z) (c : nat -> Z)
    (users_df : list Users.User) (days_range : Z) (e : Event) : Prop :=
  exists user i,
    In user users_df /\
    user_id e = Users.user_id user /\
    ab_group e = ab_group_of h (Users.user_id user) /\
    event_fields_ok e /\
    to_datetime (Users.join_date user) <= event_timestamp e /\
    event_timestamp e
      < to_datetime (Users.join_date user + days_range + 1) + 112 /\
    event_timestamp e < to_datetime (date_of (c i) + 1) + 112.

(** One session of one user. *)
Definition session_of_user (c : nat -> Z) (user_id user_segment : string)
    (jd : Z) (ab_group : string) (days_range : Z) (s : list Event) : Prop :=
  exists session_start i,
    session_post user_id user_segment session_start ab_group s /\
    Forall event_fields_ok s /\
    jd <= date_of session_start /\
    date_of session_start <= jd + days_range /\
    date_of session_start <= date_of (c i).

(** [df['event_type'].value_counts().get(event, 0)] *)
Definition value_count (events : list Event) (event : string) : nat :=
  List.length (filter (fun e => String.eqb (event_type e) event) events).

End TableVocabulary.

Section DashboardVocabulary.

Import Events.

(** [scripts/process_dashboard_data.py], the funnel counts: the number of
    events of each stage of [funnel_order]. *)
Definition funnel_order : list string :=
  ["page_view"; "search"; "item_view"; "chat_click"; "chat_send"].

Definition funnel_data (events_df : list Event) : list (string * nat) :=
  map (fun event => (event, value_count events_df event)) funnel_order.

(** [scripts/process_dashboard_data.py], the A/B counts of one group: the
    [item_view] and the [chat_click] events among the events of the
    experiment that carry the group. *)
Definition ab_counts (events_df : list Event) (group : string) : nat * nat :=
  let ab_events :=
    filter (fun e => existsb (String.eqb (ab_group e)) ["control"; "treatment"])
      events_df in
  let group_data :=
    filter (fun e => String.eqb (ab_group e) group) ab_events in
  let item_views :=
    List.length
      (filter (fun e => String.eqb (event_type e) "item_view") group_data) in
  let chat_clicks :=
    List.length
      (filter (fun e => String.eqb (event_type e) "chat_click") group_data) in
  (item_views, chat_clicks).

(** A list of counts that never goes up. *)
Fixpoint non_increasing (counts : list nat) : Prop :=
  match counts with
  | a :: (b :: _) as rest => (b <= a)%nat /\ non_increasing rest
  | _ => True
  end.

End DashboardVocabulary.



Section UserVocabulary.

Import Users.

(** The values [generate_users] chooses the age group and the device type
    from. *)
Definition age_groups : list string :=
  ["18-24"; "25-34"; "35-44"; "45-54"; "55+"].

Definition device_types : list string := ["iOS"; "Android"].

(** A row as [generate_users] builds it for the range from [start_date] to
    [end_date]: created a whole number of days after [start_date], at most
    [(end_date - start_date).days] of them, joined on the day of its
    creation, with an age group and a device type of the lists, and with
    no segment yet. *)
Definition user_row_ok (start_date end_date : Z) (user : User) : Prop :=
  (exists k, 0 <= k <= days_between_instants end_date start_date /\
             created_at user = start_date + timedelta_days k) /\
  join_date user = date_of (created_at user) /\
  In (age_group user) age_groups /\
  In (device_type user) device_types /\
  user_segment user = None.

(** A row as [generate_user_segments] leaves it: with one of the two
    segments the rule can reach. *)
Definition segmented (user : User) : Prop :=
  user_segment user = Some "medium_engagement" \/
  user_segment user = Some "low_engagement".

End UserVocabulary.



Section LoadVocabulary.

Import Events.

(** [scripts/load_data.py], [load_events_data], the conversion of the
    message length on the event table: when the table has the column
    (some event carries a message length),
    [df['message_length'].fillna(0).astype('Int64')]. *)
Definition has_message_length (e : Event) : bool :=
  match message_length e with
  | Some _ => true
  | None => false
  end.

Definition fillna_message_length (df : list Event) : list Event :=
  if existsb has_message_length df
  then map (fun e =>
              mkEvent (event_id e) (user_id e) (session_id e) (event_type e)
                (event_timestamp e) (ab_group e) (search_query e) (item_id e)
                (Some (default_to (message_length e) 0))) df
  else df.

End LoadVocabulary.

(** ** The draws of a session *)





(** * Reasoning about computations in [M] *)

Lemma frame_refl w : frame w w.
Proof. repeat split. Qed.

Lemma frame_trans w1 w2 w3 : frame w1 w2 -> frame w2 w3 -> frame w1 w3.
Proof.
  unfold frame; intros (a1 & a2 & a3 & a4 & a5) (b1 & b2 & b3 & b4 & b5).
  repeat split; congruence.
Qed.

Lemma returns_ret A (a : A) w (post : A -> Prop) :
  post a -> returns (ret a) w post.
Proof. intros H; exists a, w; auto using frame_refl. Qed.

Lemma returns_bind A B (m : M A) (k : A -> M B) w (mid : A -> Prop)
    (post : B -> Prop) :
  returns m w mid ->
  (forall a w', frame w w' -> mid a -> returns (k a) w' post) ->
  returns (bind m k) w post.
Proof.
  intros (a & w1 & Hm & Hf & Ha) Hk.
  destruct (Hk a w1 Hf Ha) as (b & w2 & Hb & Hf2 & Hp).
  exists b, w2; unfold bind; rewrite Hm.
  eauto using frame_trans.
Qed.

Lemma returns_weaken A (m : M A) w (P Q : A -> Prop) :
  returns m w P -> (forall a, P a -> Q a) -> returns m w Q.
Proof. intros (a & w' & H1 & H2 & H3) HPQ; exists a, w'; auto. Qed.

Lemma np_next_returns w :
  returns np_next w (fun r => r = np_table w (np_seed w) (np_pos w)).
Proof. eexists _, _; split; [reflexivity|]; repeat split. Qed.

Lemma randint_returns low high w :
  low < high -> returns (randint low high) w (fun r => low <= r < high).
Proof.
  intros H; unfold randint.
  destruct (Z.ltb_spec low high); [|lia].
  eapply returns_bind; [apply np_next_returns|].
  intros r w' _ _; apply returns_ret.
  pose proof (Z.mod_pos_bound r (high - low)); lia.
Qed.

Lemma random_returns w : returns random w (fun u => 0 <= u /\ u < 1)%Q.
Proof.
  eapply returns_bind; [apply np_next_returns|].
  intros r w' _ _; apply returns_ret.
  pose proof (Z.mod_pos_bound r (2 ^ 53) ltac:(lia)) as Hr.
  unfold Qle, Qlt; cbn [Qnum Qden]; rewrite !Z.mul_1_r; split.
  - lia.
  - change (Z.pos (Z.to_pos (2 ^ 53))) with (2 ^ 53); lia.
Qed.

Lemma uuid4_returns w : returns uuid4 w (fun _ => True).
Proof. eexists _, _; split; [reflexivity|]; repeat split. Qed.

Lemma fake_next_returns w : returns fake_next w (fun _ => True).
Proof. eexists _, _; split; [reflexivity|]; repeat split. Qed.

Lemma datetime_now_returns w :
  returns datetime_now w (fun t => exists i, t = clock w i).
Proof. eexists _, _; split; [reflexivity|]; repeat split; eauto. Qed.

Lemma hash_returns s w : returns (hash s) w (fun h => h = py_hash w s).
Proof. eexists _, _; split; [reflexivity|]; repeat split. Qed.

Lemma getitem_returns V (d : list (string * V)) k v w :
  assoc k d = Some v -> returns (getitem d k) w (fun x => x = v).
Proof. intros H; unfold getitem; rewrite H; now apply returns_ret. Qed.

Lemma choice_returns A (a : list A) w :
  a <> [] -> returns (choice a) w (fun x => In x a).
Proof.
  intros Ha; unfold choice.
  eapply returns_bind.
  - apply randint_returns. destruct a; [congruence|cbn; lia].
  - intros idx w' _ Hidx; cbv beta in Hidx.
    destruct (nth_error a (Z.to_nat idx)) eqn:E.
    + apply returns_ret; eauto using nth_error_In.
    + apply nth_error_None in E; lia.
Qed.

Lemma searchsorted_right_lt (cdf : list Q) (u d : Q) :
  cdf <> [] -> (u < last cdf d)%Q ->
  (searchsorted_right cdf u < List.length cdf)%nat.
Proof.
  induction cdf as [|c cdf IH]; [congruence|]; intros _ Hu.
  cbn [searchsorted_right List.length].
  destruct (Qle_bool c u) eqn:E; [|lia].
  destruct cdf as [|c' cdf].
  - cbn in Hu. apply Qle_bool_iff in E. lra.
  - apply -> Nat.succ_lt_mono. apply IH; [congruence|exact Hu].
Qed.

Lemma last_map_Q (f : Q -> Q) (l : list Q) (d : Q) :
  last (map f l) (f d) = f (last l d).
Proof.
  induction l as [|x l IH]; [reflexivity|].
  destruct l; [reflexivity|exact IH].
Qed.

Lemma cumsum_length acc p : List.length (cumsum acc p) = List.length p.
Proof. revert acc; induction p; intros; cbn; auto. Qed.

Lemma choice_p_returns A (a : list A) (p : list Q) w :
  p <> [] -> (List.length p <= List.length a)%nat ->
  (0 < last (cumsum 0 p) 1)%Q ->
  returns (choice_p a p) w (fun x => In x a).
Proof.
  intros Hp Hlen Htot; unfold choice_p.
  eapply returns_bind; [apply random_returns|].
  intros u w' _ [_ Hu]; cbv zeta.
  set (total := last (cumsum 0 p) 1%Q) in *.
  set (cdf := map (fun c => (c / total)%Q) (cumsum 0 p)).
  assert (Hidx : (searchsorted_right cdf u < List.length cdf)%nat).
  { apply searchsorted_right_lt with (d := (1 / total)%Q).
    - unfold cdf; destruct p; [congruence|discriminate].
    - unfold cdf.
      rewrite (last_map_Q (fun c => (c / total)%Q)); fold total.
      assert (total / total == 1)%Q by (field; lra). lra. }
  unfold cdf in Hidx at 2; rewrite length_map, cumsum_length in Hidx.
  destruct (nth_error a (searchsorted_right cdf u)) eqn:E.
  - apply returns_ret; eauto using nth_error_In.
  - apply nth_error_None in E; lia.
Qed.

(** * Sessions *)

Section Session.

Import Events.

Lemma _create_event_returns user_id session_id event_type timestamp ab_group
    extra_data w :
  returns (_create_event user_id session_id event_type timestamp ab_group
             extra_data) w
    (fun e => exists id,
       e = mkEvent id user_id session_id event_type timestamp ab_group
             (match extra_data with Some x => extra_search_query x | None => None end)
             (match extra_data with Some x => extra_item_id x | None => None end)
             (match extra_data with Some x => extra_message_length x | None => None end)).
Proof.
  unfold _create_event.
  eapply returns_bind; [apply uuid4_returns|].
  intros id w' _ _; destruct extra_data; apply returns_ret; eauto.
Qed.

Lemma _generate_search_query_returns w :
  returns _generate_search_query w (fun _ => True).
Proof.
  unfold _generate_search_query.
  eapply returns_weaken; [apply choice_returns; discriminate|auto].
Qed.

Lemma composed_rates_eq user_segment ab_group :
  composed_rates user_segment ab_group =
  [ 0.60 * dict_get segment_multiplier user_segment 1.0%Q;
    0.75 * dict_get segment_multiplier user_segment 1.0%Q;
    0.25 * dict_get segment_multiplier user_segment 1.0%Q
      * (if String.eqb ab_group "treatment" then 1.4 else 1.0);
    0.80 * dict_get segment_multiplier user_segment 1.0%Q ]%Q.
Proof. reflexivity. Qed.

Ltac session_done :=
  cbv beta in *; rewrite composed_rates_eq; cbn [combine funnel_depth];
  repeat match goal with E : Qlt_bool _ _ = _ |- _ => rewrite E; clear E end;
  unfold unit_draw in *;
  solve [repeat split; try lia; try reflexivity; lra].
Ltac run lemma := eapply returns_bind; [lemma|].
Ltac run_rate :=
  eapply returns_bind; [apply getitem_returns; reflexivity|];
  let r := fresh "rate" in let H := fresh in
  intros r ? _ H; cbv beta in H; subst r.

Lemma generate_user_session_returns user_id user_segment session_start
    ab_group w :
  returns (generate_user_session user_id user_segment session_start ab_group)
    w (session_post user_id user_segment session_start ab_group).
Proof.
  unfold generate_user_session, session_post; cbv zeta.
  run ltac:(apply uuid4_returns); intros sid w1 _ _.
  run ltac:(apply _create_event_returns); intros e0 w2 _ [i0 ->].
  run ltac:(apply randint_returns; lia); intros d1 w3 _ Hd1.
  run ltac:(apply random_returns); intros u1 w4 _ Hu1.
  run_rate.
  destruct (Qlt_bool u1 _) eqn:E1;
    [|apply returns_ret;
      exists 1%nat, sid, i0, i0, i0, i0, i0, "", "", 10,
        (session_start + d1), (session_start + d1 + 3),
        (session_start + d1 + 3 + 10), (session_start + d1 + 3 + 10 + 2),
        u1, 0%Q, 0%Q, 0%Q;
      session_done].
  run ltac:(apply _generate_search_query_returns); intros q w5 _ _.
  run ltac:(apply _create_event_returns); intros e1 w6 _ [i1 ->].
  run ltac:(apply randint_returns; lia); intros d2 w7 _ Hd2.
  run ltac:(apply random_returns); intros u2 w8 _ Hu2.
  run_rate.
  destruct (Qlt_bool u2 _) eqn:E2;
    [|apply returns_ret;
      exists 2%nat, sid, i0, i1, i0, i0, i0, q, "", 10,
        (session_start + d1), (session_start + d1 + d2),
        (session_start + d1 + d2 + 10), (session_start + d1 + d2 + 10 + 2),
        u1, u2, 0%Q, 0%Q;
      session_done].
  run ltac:(apply uuid4_returns); intros item w9 _ _.
  run ltac:(apply _create_event_returns); intros e2 w10 _ [i2 ->].
  run ltac:(apply randint_returns; lia); intros d3 w11 _ Hd3.
  run_rate.
  run ltac:(apply random_returns); intros u3 w12 _ Hu3.
  destruct (Qlt_bool u3 _) eqn:E3;
    [|apply returns_ret;
      exists 3%nat, sid, i0, i1, i2, i0, i0, q, item, 10,
        (session_start + d1), (session_start + d1 + d2),
        (session_start + d1 + d2 + d3), (session_start + d1 + d2 + d3 + 2),
        u1, u2, u3, 0%Q;
      session_done].
  run ltac:(apply _create_event_returns); intros e3 w13 _ [i3 ->].
  run ltac:(apply randint_returns; lia); intros d4 w14 _ Hd4.
  run ltac:(apply random_returns); intros u4 w15 _ Hu4.
  run_rate.
  destruct (Qlt_bool u4 _) eqn:E4.
  - run ltac:(apply randint_returns; lia); intros len w16 _ Hlen.
    run ltac:(apply _create_event_returns); intros e4 w17 _ [i4 ->].
    apply returns_ret.
    exists 5%nat, sid, i0, i1, i2, i3, i4, q, item, len,
      (session_start + d1), (session_start + d1 + d2),
      (session_start + d1 + d2 + d3), (session_start + d1 + d2 + d3 + d4),
      u1, u2, u3, u4.
    session_done.
  - apply returns_ret.
    exists 4%nat, sid, i0, i1, i2, i3, i0, q, item, 10,
      (session_start + d1), (session_start + d1 + d2),
      (session_start + d1 + d2 + d3), (session_start + d1 + d2 + d3 + 2),
      u1, u2, u3, u4.
    session_done.
Qed.

End Session.

Section SessionTheorems.

Import Events.

Lemma funnel_depth_le draws : (funnel_depth draws <= List.length draws)%nat.
Proof.
  induction draws as [|[u r] draws IH]; cbn; [lia|].
  destruct (Qlt_bool u r); lia.
Qed.

(** The session post-condition with the bound on [n] made explicit. *)
Lemma session_post_cases user_id user_segment session_start ab_group events :
  session_post user_id user_segment session_start ab_group events ->
  exists (n : nat) session_id i0 i1 i2 i3 i4 query item len t1 t2 t3 t4,
    (n = 1 \/ n = 2 \/ n = 3 \/ n = 4 \/ n = 5)%nat /\
    session_start < t1 /\ t1 < t2 /\ t2 < t3 /\ t3 < t4 /\
    events = firstn n (funnel user_id session_id ab_group i0 i1 i2 i3 i4
                         query item len session_start t1 t2 t3 t4).
Proof.
  intros (n & sid & i0 & i1 & i2 & i3 & i4 & q & item & len & t1 & t2 & t3
          & t4 & u1 & u2 & u3 & u4 & H1 & H2 & H3 & H4 & _ & _ & _ & _ & _
          & Hn & Hev).
  exists n, sid, i0, i1, i2, i3, i4, q, item, len, t1, t2, t3, t4.
  set (draws := combine [u1; u2; u3; u4]
                  (composed_rates user_segment ab_group)) in *.
  pose proof (funnel_depth_le draws) as Hle.
  change (List.length draws) with 4%nat in Hle.
  repeat split; try lia; exact Hev.
Qed.

(** C1. Every call of [generate_user_session] returns, and the event types
    it returns are the first [n] stages of [EVENT_TYPES] for some [n] from
    1 to 5; a stage therefore occurs only right after its immediate
    predecessor stage; and the timestamps of the session are strictly
    increasing. *)
Theorem generate_user_session_funnel_prefix
    (user_id user_segment : string) (session_start : Z) (ab_group : string)
    (w : World) :
  exists events w',
    generate_user_session user_id user_segment session_start ab_group w
      = Ok (events, w') /\
    (exists n, (1 <= n <= 5)%nat /\
               map event_type events = firstn n EVENT_TYPES) /\
    (forall i j,
        (S i < List.length EVENT_TYPES)%nat ->
        nth_error (map event_type events) j = nth_error EVENT_TYPES (S i) ->
        exists j', (j' < j)%nat /\
          nth_error (map event_type events) j' = nth_error EVENT_TYPES i) /\
    StronglySorted Z.lt (map event_timestamp events).
Proof.
  destruct (generate_user_session_returns user_id user_segment session_start
              ab_group w) as (events & w' & Hrun & _ & Hpost).
  exists events, w'; split; [exact Hrun|].
  apply session_post_cases in Hpost.
  destruct Hpost as (n & sid & i0 & i1 & i2 & i3 & i4 & q & item & len & t1
                     & t2 & t3 & t4 & Hn & H1 & H2 & H3 & H4 & ->).
  split; [exists n; split; [lia|]|split].
  - destruct Hn as [->|[->|[->|[->| ->]]]]; reflexivity.
  - intros i j Hi Hj; cbn in Hi.
    assert (Hi' : (i = 0 \/ i = 1 \/ i = 2 \/ i = 3)%nat) by lia.
    destruct Hn as [->|[->|[->|[->| ->]]]];
      destruct Hi' as [->|[->|[->| ->]]];
      cbn in Hj |- *;
      repeat (destruct j as [|j]; cbn in Hj; try discriminate Hj);
      try (exists 0%nat; split; [lia|reflexivity]);
      try (exists 1%nat; split; [lia|reflexivity]);
      try (exists 2%nat; split; [lia|reflexivity]);
      try (exists 3%nat; split; [lia|reflexivity]).
  - destruct Hn as [->|[->|[->|[->| ->]]]]; cbn;
      repeat (constructor; [|repeat constructor; lia]); constructor.
Qed.

(** C8. In every session returned by [generate_user_session], a
    [chat_send] event is accompanied by a [chat_click] event, and every
    [chat_click] or [chat_send] event carries the item identifier of the
    session's [item_view] event. *)
Theorem chat_events_follow_item_view
    (user_id user_segment : string) (session_start : Z) (ab_group : string)
    (w : World) :
  exists events w',
    generate_user_session user_id user_segment session_start ab_group w
      = Ok (events, w') /\
    (forall e, In e events -> event_type e = "chat_send" ->
       exists c, In c events /\ event_type c = "chat_click") /\
    (forall v e, In v events -> In e events ->
       event_type v = "item_view" ->
       event_type e = "chat_click" \/ event_type e = "chat_send" ->
       item_id e = item_id v /\ exists item, item_id v = Some item).
Proof.
  destruct (generate_user_session_returns user_id user_segment session_start
              ab_group w) as (events & w' & Hrun & _ & Hpost).
  exists events, w'; split; [exact Hrun|].
  apply session_post_cases in Hpost.
  destruct Hpost as (n & sid & i0 & i1 & i2 & i3 & i4 & q & item & len & t1
                     & t2 & t3 & t4 & Hn & _ & _ & _ & _ & ->).
  split.
  - intros e He Hty.
    destruct Hn as [->|[->|[->|[->| ->]]]]; cbn in He;
      repeat (destruct He as [<-|He]; [try discriminate Hty|]);
      try contradiction.
    eexists; split; [right; right; right; left; reflexivity|reflexivity].
  - intros v e Hv He Htv Hte.
    destruct Hn as [->|[->|[->|[->| ->]]]]; cbn in Hv, He;
      repeat (destruct Hv as [<-|Hv]; [try discriminate Htv|]);
      try contradiction;
      repeat (destruct He as [<-|He];
              [try (destruct Hte as [Hte|Hte]; discriminate Hte)|]);
      try contradiction; cbn; eauto.
Qed.

End SessionTheorems.

Section Rates.

Import Events.



End Rates.

(** * A/B groups *)

Section ABGroup.

Import Events.

(** C4, amended. Within a run, [assign_ab_group] reads nothing but the
    interpreter's hash of the identifier and changes no state: it reduces
    the hash modulo 100, into [0, 100), and returns control below 20,
    treatment from 20 to 39 and none from 40 on; called again for the same
    identifier, at once or at any later point of the run, it returns the
    same group. *)
Theorem assign_ab_group_buckets (user_id : string) (w : World) :
  exists group,
    assign_ab_group user_id w = Ok (group, w) /\
    (let mod_val := py_hash w user_id mod 100 in
     0 <= mod_val < 100 /\
     (0 <= mod_val < 20 -> group = "control") /\
     (20 <= mod_val < 40 -> group = "treatment") /\
     (40 <= mod_val < 100 -> group = "none")) /\
    (g1 <- assign_ab_group user_id ;; g2 <- assign_ab_group user_id ;;
     ret (g1, g2)) w = Ok ((group, group), w) /\
    (forall w', frame w w' -> assign_ab_group user_id w' = Ok (group, w')).
Proof.
  pose proof (Z.mod_pos_bound (py_hash w user_id) 100 ltac:(lia)) as Hm.
  assert (Hrun : forall w', py_hash w' = py_hash w ->
            assign_ab_group user_id w' =
            Ok ((if py_hash w user_id mod 100 <? 20 then "control"
                 else if py_hash w user_id mod 100 <? 40 then "treatment"
                 else "none"), w')).
  { intros w' Hh; unfold assign_ab_group, bind, hash; rewrite Hh.
    destruct (_ <? 20); [reflexivity|].
    destruct (_ <? 40); reflexivity. }
  eexists; split; [apply Hrun; reflexivity|].
  split; [|split].
  - cbv zeta; split; [exact Hm|].
    repeat split; intros H.
    + destruct (Z.ltb_spec (py_hash w user_id mod 100) 20); [reflexivity|lia].
    + destruct (Z.ltb_spec (py_hash w user_id mod 100) 20); [lia|].
      destruct (Z.ltb_spec (py_hash w user_id mod 100) 40); [reflexivity|lia].
    + destruct (Z.ltb_spec (py_hash w user_id mod 100) 20); [lia|].
      destruct (Z.ltb_spec (py_hash w user_id mod 100) 40); [lia|reflexivity].
  - unfold bind at 1; rewrite (Hrun w eq_refl).
    unfold bind; rewrite (Hrun w eq_refl); reflexivity.
  - intros w' (_ & _ & _ & _ & Hh); apply Hrun, Hh.
Qed.

End ABGroup.

(** * Segments *)

Section Segments.

Import Users.

Lemma generate_user_segments_map df :
  generate_user_segments df =
  map (fun row => set_user_segment row (segment_of row)) df.
Proof.
  unfold generate_user_segments; cbv zeta.
  induction df as [|row df IH]; [reflexivity|].
  cbn [map combine fst snd]; now rewrite IH.
Qed.

Lemma segment_of_spec row :
  segment_of row =
  classify_spec
    (engagement_score_spec (verified_neighborhood row) (age_group row)).
Proof.
  unfold segment_of, engagement_score_spec, dict_get, age_multiplier, assoc.
  cbv zeta.
  repeat (destruct (String.eqb (age_group row) _); [reflexivity|]).
  reflexivity.
Qed.

Lemma segment_of_set_user_segment row s :
  segment_of (set_user_segment row s) = segment_of row.
Proof. reflexivity. Qed.

(** C5. [generate_user_segments] keeps the number of rows; in each row it
    leaves every field but [user_segment] as it was and sets
    [user_segment] to the class of (0.5 if verified else 0.3) times the
    age-group multiplier, so the segment depends on the verification flag
    and the age group only; and applying it twice is applying it once. *)
Theorem generate_user_segments_correct (df : list User) :
  List.length (generate_user_segments df) = List.length df /\
  Forall2
    (fun row row' =>
       user_id row' = user_id row /\ name row' = name row /\
       location row' = location row /\ join_date row' = join_date row /\
       verified_neighborhood row' = verified_neighborhood row /\
       created_at row' = created_at row /\ age_group row' = age_group row /\
       device_type row' = device_type row /\
       user_segment row' =
         Some (classify_spec
                 (engagement_score_spec (verified_neighborhood row)
                    (age_group row))))
    df (generate_user_segments df) /\
  generate_user_segments (generate_user_segments df)
    = generate_user_segments df.
Proof.
  rewrite !generate_user_segments_map; split; [|split].
  - apply length_map.
  - induction df as [|row df IH]; cbn [map]; constructor; [|exact IH].
    rewrite <- segment_of_spec; cbn; repeat split.
  - rewrite map_map; apply map_ext; intros row.
    now rewrite segment_of_set_user_segment.
Qed.

(** The segment of each of the ten combinations the generator produces:
    no user is classified [high_engagement]. *)
Lemma segment_table :
  map (fun age => classify_spec (engagement_score_spec true age))
      ["18-24"; "25-34"; "35-44"; "45-54"; "55+"]
    = ["medium_engagement"; "medium_engagement"; "medium_engagement";
       "low_engagement"; "low_engagement"] /\
  map (fun age => classify_spec (engagement_score_spec false age))
      ["18-24"; "25-34"; "35-44"; "45-54"; "55+"]
    = ["low_engagement"; "low_engagement"; "low_engagement";
       "low_engagement"; "low_engagement"].
Proof. split; reflexivity. Qed.

End Segments.

(** * The event table *)

Section EventTable.

Import Events.

Lemma date_of_to_datetime d : date_of (to_datetime d) = d.
Proof. unfold date_of, to_datetime, SECONDS_PER_DAY; now apply Z.div_mul. Qed.



Lemma hourly_choice_returns w :
  returns (choice_p (range 24) _get_hourly_distribution) w
    (fun hour => 0 <= hour < 24).
Proof.
  eapply returns_weaken.
  - apply choice_p_returns.
    + discriminate.
    + apply Nat.le_refl.
    + vm_compute; reflexivity.
  - intros hour Hin; cbv beta in Hin.
    unfold range in Hin; apply in_map_iff in Hin.
    destruct Hin as (k & <- & Hk); apply in_seq in Hk; lia.
Qed.





Lemma frame_np_step w : frame w (np_step w).
Proof. repeat split. Qed.

Lemma returns_from A (m : M A) w w0 (post : A -> Prop) :
  frame w w0 -> returns m w0 post ->
  exists a w', m w0 = Ok (a, w') /\ frame w w' /\ post a.
Proof.
  intros Hf (a & w' & H1 & H2 & H3); exists a, w'; eauto using frame_trans.
Qed.



End EventTable.

Section EventTableTheorems.

Import Events.



Lemma user_loop_default_segment users range days all_events w :
  user_loop users range days all_events w =
  user_loop (map with_default_segment users) range days all_events w.
Proof.
  revert all_events w; induction users as [|user users IH]; intros;
    [reflexivity|].
  cbn [map user_loop]; unfold bind.
  change (events_for_user (with_default_segment user) range days all_events w)
    with (events_for_user user range days all_events w).
  destruct (events_for_user user range days all_events w) as [[a w']|e];
    [apply IH|reflexivity].
Qed.

(** C10. A user table whose missing segments are filled in with
    [medium_engagement] gives the same event table, so a user without a
    segment is simulated as a medium-engagement user; a segment outside
    the three known ones has multiplier 1.0 and gives the sessions of a
    medium-engagement user; and [generate_user_session] returns a session
    for every segment. *)
Theorem segment_defaults :
  (forall users_df range days w,
     generate_events_for_users users_df range days w
       = generate_events_for_users (map with_default_segment users_df)
           range days w) /\
  (forall user, Users.user_segment user = None ->
     Users.user_segment (with_default_segment user)
       = Some "medium_engagement") /\
  (forall user_segment,
     user_segment <> "high_engagement" ->
     user_segment <> "medium_engagement" ->
     user_segment <> "low_engagement" ->
     dict_get segment_multiplier user_segment 1.0%Q = 1.0%Q /\
     forall user_id session_start ab_group w,
       generate_user_session user_id user_segment session_start ab_group w
         = generate_user_session user_id "medium_engagement" session_start
             ab_group w) /\
  (forall user_id user_segment session_start ab_group w,
     exists events w',
       generate_user_session user_id user_segment session_start ab_group w
         = Ok (events, w')).
Proof.
  repeat split.
  - intros users_df range days w; unfold generate_events_for_users.
    cbv zeta; unfold bind; now rewrite <- user_loop_default_segment.
  - intros user H; unfold with_default_segment; now rewrite H.
  - unfold dict_get, segment_multiplier, assoc.
    destruct (String.eqb_spec user_segment "high_engagement"); [easy|].
    destruct (String.eqb_spec user_segment "medium_engagement"); [easy|].
    destruct (String.eqb_spec user_segment "low_engagement"); easy.
  - intros user_id session_start ab_group w.
    assert (Hm : dict_get segment_multiplier user_segment 1.0%Q = 1.0%Q).
    { unfold dict_get, segment_multiplier, assoc.
      destruct (String.eqb_spec user_segment "high_engagement"); [easy|].
      destruct (String.eqb_spec user_segment "medium_engagement"); [easy|].
      destruct (String.eqb_spec user_segment "low_engagement"); easy. }
    unfold generate_user_session; cbv zeta; rewrite Hm; reflexivity.
  - intros user_id user_segment session_start ab_group w.
    destruct (generate_user_session_returns user_id user_segment
                session_start ab_group w) as (events & w' & Hrun & _).
    eauto.
Qed.

End EventTableTheorems.

(** * The user table *)

Section UserTable.

Import Users.

Lemma for_range_append_returns A (body : M A) (P : A -> Prop) n acc w :
  (forall w', frame w w' -> returns body w' P) ->
  Forall P acc ->
  returns (for_range_append n body acc) w
    (fun l => List.length l = (List.length acc + n)%nat /\ Forall P l).
Proof.
  revert acc w; induction n as [|n IH]; intros acc w Hbody Hacc;
    cbn [for_range_append].
  - apply returns_ret; split; [lia|exact Hacc].
  - eapply returns_bind; [apply Hbody, frame_refl|].
    intros x w' Hf Hx.
    eapply returns_weaken.
    + apply IH.
      * intros w'' Hf'; apply Hbody; eauto using frame_trans.
      * apply Forall_app; split; [exact Hacc|constructor; [exact Hx|constructor]].
    + intros l [Hlen Hall]; cbv beta; rewrite length_app in Hlen.
      cbn [List.length] in Hlen; split; [lia|exact Hall].
Qed.

Lemma insert_by_length A (key : A -> Z) x l :
  List.length (insert_by key x l) = S (List.length l).
Proof.
  induction l as [|y l IH]; cbn; [reflexivity|].
  destruct (key x <=? key y); cbn; [reflexivity|now rewrite IH].
Qed.

Lemma sort_by_length A (key : A -> Z) l :
  List.length (sort_by key l) = List.length l.
Proof.
  induction l as [|x l IH]; cbn; [reflexivity|].
  now rewrite insert_by_length, IH.
Qed.

Lemma insert_by_Forall A (key : A -> Z) (P : A -> Prop) x l :
  P x -> Forall P l -> Forall P (insert_by key x l).
Proof.
  intros Hx; induction 1 as [|y l Hy Hl IH]; cbn.
  - repeat constructor; exact Hx.
  - destruct (key x <=? key y); repeat constructor; auto.
Qed.

Lemma sort_by_Forall A (key : A -> Z) (P : A -> Prop) l :
  Forall P l -> Forall P (sort_by key l).
Proof.
  induction 1 as [|x l Hx Hl IH]; cbn; [constructor|].
  now apply insert_by_Forall.
Qed.

Lemma insert_by_sorted A (key : A -> Z) x l :
  StronglySorted (fun a b => key a <= key b) l ->
  StronglySorted (fun a b => key a <= key b) (insert_by key x l).
Proof.
  induction 1 as [|y l Hs IH Hy]; cbn.
  - repeat constructor.
  - destruct (Z.leb_spec (key x) (key y)) as [Hle|Hgt].
    + constructor; [constructor; assumption|].
      constructor; [exact Hle|].
      eapply Forall_impl; [|exact Hy]; cbv beta; intros; lia.
    + constructor; [exact IH|].
      apply insert_by_Forall; [lia|exact Hy].
Qed.

Lemma sort_by_sorted A (key : A -> Z) l :
  StronglySorted (fun a b => key a <= key b) (sort_by key l).
Proof.
  induction l as [|x l IH]; cbn; [constructor|].
  now apply insert_by_sorted.
Qed.

Lemma join_date_in_range start_date end_date random_days :
  0 <= random_days < days_between_instants end_date start_date + 1 ->
  date_of start_date
    <= date_of (start_date + timedelta_days random_days)
    <= date_of end_date.
Proof.
  unfold days_between_instants, date_of, timedelta_days, SECONDS_PER_DAY.
  intros H; rewrite Z.div_add by lia; split; [lia|].
  pose proof (Z.mul_div_le (end_date - start_date) 86400 ltac:(lia)).
  pose proof (Z.mul_div_le start_date 86400 ltac:(lia)).
  apply Z.div_le_lower_bound; lia.
Qed.

Lemma generate_user_returns start_date end_date w :
  0 <= days_between_instants end_date start_date ->
  returns (generate_user start_date end_date) w
    (fun user =>
       date_of start_date <= join_date user <= date_of end_date).
Proof.
  intros Hdays; unfold generate_user; cbv zeta.
  eapply returns_bind; [apply uuid4_returns|]; intros id w1 _ _.
  eapply returns_bind; [apply randint_returns; lia|]; intros rd w2 _ Hrd.
  eapply returns_bind; [apply random_returns|]; intros u w3 _ _.
  eapply returns_bind; [apply fake_next_returns|]; intros loc w4 _ _.
  eapply returns_bind; [apply fake_next_returns|]; intros nm w5 _ _.
  eapply returns_bind;
    [apply choice_p_returns;
     [discriminate|apply Nat.le_refl|vm_compute; reflexivity]|].
  intros age w6 _ _.
  eapply returns_bind;
    [apply choice_p_returns;
     [discriminate|apply Nat.le_refl|vm_compute; reflexivity]|].
  intros dev w7 _ _.
  apply returns_ret; cbn [join_date].
  apply join_date_in_range; exact Hrd.
Qed.

(** For a positive count and a date range that is not reversed,
    [generate_users] returns exactly that many rows, each with a join date
    of the range (both end days included), in ascending order of join
    date. *)
Lemma generate_users_rows num_users start_date end_date w :
  0 < num_users ->
  0 <= days_between_instants end_date start_date ->
  returns (generate_users (Some num_users) (Some start_date) (Some end_date)) w
    (fun df =>
       List.length df = Z.to_nat num_users /\
       StronglySorted by_join_date df /\
       Forall (fun user =>
                 date_of start_date <= join_date user <= date_of end_date) df).
Proof.
  intros Hn Hdays; unfold generate_users; cbv zeta; cbn [default_to].
  eapply returns_bind;
    [apply returns_ret with (post := fun x => x = start_date); reflexivity|].
  intros s w1 _ Hs; cbv beta in Hs; subst s.
  eapply returns_bind;
    [apply returns_ret with (post := fun x => x = end_date); reflexivity|].
  intros e w2 _ He; cbv beta in He; subst e.
  eapply returns_bind.
  - apply for_range_append_returns
      with (P := fun user =>
                   date_of start_date <= join_date user <= date_of end_date).
    + intros w' _; now apply generate_user_returns.
    + constructor.
  - intros users w3 _ [Hlen Hall]; cbn in Hlen.
    destruct users as [|user users]; [cbn in Hlen; lia|].
    apply returns_ret; repeat split.
    + now rewrite sort_by_length.
    + apply sort_by_sorted.
    + now apply sort_by_Forall.
Qed.

(** C6, where the code departs from the claim: for a count of zero or
    less the loop builds no row, the frame has no [join_date] column, and
    sorting by it raises [KeyError] instead of returning an empty table. *)
Theorem generate_users_no_rows_raises
    (k : nat) (start_date end_date : option Z) (w : World) :
  generate_users (Some (- Z.of_nat k)) start_date end_date w
    = Raise (KeyError "join_date").
Proof.
  unfold generate_users; cbv zeta; cbn [default_to].
  replace (Z.to_nat (- Z.of_nat k)) with 0%nat by lia.
  destruct start_date, end_date; reflexivity.
Qed.

End UserTable.

(** * Runs of the pipeline *)

Section Runs.

(** C2, where the code departs from the claim: two runs with the same
    seed and the same arguments, which differ in nothing but the values
    [uuid.uuid4] returns, give different user tables (the rows differ in
    [user_id] and in nothing else) and different event tables. *)
Theorem seeded_runs_differ :
  let run :=
    _ <- Users.init (Some 42) ;;
    Users.generate_users (Some 2) (Some 0) (Some 864000) in
  exists users1 users2 tables1 tables2,
    value_of (run example_world) = Some users1 /\
    value_of (run second_run_world) = Some users2 /\
    users1 <> users2 /\
    map without_user_id users1 = map without_user_id users2 /\
    value_of (generate_data (Some 2) example_world) = Some tables1 /\
    value_of (generate_data (Some 2) second_run_world) = Some tables2 /\
    fst tables1 <> fst tables2 /\
    snd tables1 <> snd tables2 /\
    snd tables1 <> [].
Proof.
  cbv zeta.
  eexists _, _, _, _.
  split; [vm_compute; reflexivity|].
  split; [vm_compute; reflexivity|].
  split; [discriminate|].
  split; [reflexivity|].
  split; [vm_compute; reflexivity|].
  split; [vm_compute; reflexivity|].
  split; [discriminate|].
  split; discriminate.
Qed.

End Runs.

(** * The same constants in binary64 *)

(** Every comparison of a constant product with a threshold has the same
    outcome on IEEE doubles as on the exact rationals. *)
Lemma segment_tests_agree : segment_tests_float = segment_tests_Q.
Proof. vm_compute; reflexivity. Qed.

Lemma rate_tests_agree : rate_tests_float = rate_tests_Q.
Proof. vm_compute; reflexivity. Qed.

(** * Further properties of a session *)

Ltac mstep lemma := eapply returns_bind; [lemma|].
Ltac mrate :=
  eapply returns_bind; [apply getitem_returns; reflexivity|];
  let r := fresh "rate" in let H := fresh in
  intros r ? _ H; cbv beta in H; subst r.
Ltac fields_done :=
  apply returns_ret; cbv beta in *; unfold event_fields_ok;
  repeat (constructor; [cbn; solve [intuition eauto 8]|]); constructor.

Section SessionFields.

Import Events.

Lemma _generate_search_query_in w :
  returns _generate_search_query w (fun q => In q search_queries).
Proof. apply choice_returns; discriminate. Qed.

Lemma generate_user_session_fields user_id user_segment session_start
    ab_group w :
  returns (generate_user_session user_id user_segment session_start ab_group)
    w (Forall event_fields_ok).
Proof.
  unfold generate_user_session; cbv zeta.
  mstep ltac:(apply uuid4_returns); intros sid w1 _ _.
  mstep ltac:(apply _create_event_returns); intros e0 w2 _ [i0 ->].
  mstep ltac:(apply randint_returns; lia); intros d1 w3 _ Hd1.
  mstep ltac:(apply random_returns); intros u1 w4 _ Hu1.
  mrate.
  destruct (Qlt_bool u1 _); [|fields_done].
  mstep ltac:(apply _generate_search_query_in); intros q w5 _ Hq.
  mstep ltac:(apply _create_event_returns); intros e1 w6 _ [i1 ->].
  mstep ltac:(apply randint_returns; lia); intros d2 w7 _ Hd2.
  mstep ltac:(apply random_returns); intros u2 w8 _ Hu2.
  mrate.
  destruct (Qlt_bool u2 _); [|fields_done].
  mstep ltac:(apply uuid4_returns); intros item w9 _ _.
  mstep ltac:(apply _create_event_returns); intros e2 w10 _ [i2 ->].
  mstep ltac:(apply randint_returns; lia); intros d3 w11 _ Hd3.
  mrate.
  mstep ltac:(apply random_returns); intros u3 w12 _ Hu3.
  destruct (Qlt_bool u3 _); [|fields_done].
  mstep ltac:(apply _create_event_returns); intros e3 w13 _ [i3 ->].
  mstep ltac:(apply randint_returns; lia); intros d4 w14 _ Hd4.
  mstep ltac:(apply random_returns); intros u4 w15 _ Hu4.
  mrate.
  destruct (Qlt_bool u4 _); [|fields_done].
  mstep ltac:(apply randint_returns; lia); intros len w16 _ Hlen.
  mstep ltac:(apply _create_event_returns); intros e4 w17 _ [i4 ->].
  fields_done.
Qed.

End SessionFields.

(** * Further properties of the event table *)

Section TableLemmas.

Import Events.

Lemma returns_conj A (m : M A) w (P Q : A -> Prop) :
  returns m w P -> returns m w Q -> returns m w (fun a => P a /\ Q a).
Proof.
  intros (a & w1 & H1 & Hf & HP) (b & w2 & H2 & _ & HQ).
  rewrite H1 in H2; injection H2 as <- <-.
  exists a, w1; auto.
Qed.

Lemma assign_ab_group_ok user_id w :
  assign_ab_group user_id w = Ok (ab_group_of (py_hash w) user_id, w).
Proof.
  unfold assign_ab_group, ab_group_of, bind, hash, ret.
  destruct (py_hash w user_id mod 100 <? 20); [reflexivity|].
  destruct (py_hash w user_id mod 100 <? 40); reflexivity.
Qed.

Lemma date_of_session_start jd rd h m s :
  0 <= h < 24 -> 0 <= m < 60 -> 0 <= s < 60 ->
  date_of (replace_hms (to_datetime jd + timedelta_days rd) h m s) = jd + rd.
Proof.
  intros Hh Hm Hs.
  unfold replace_hms, date_of, to_datetime, timedelta_days, SECONDS_PER_DAY.
  replace (jd * 86400 + rd * 86400) with ((jd + rd) * 86400) by lia.
  rewrite Z.div_mul by lia.
  replace ((jd + rd) * 86400 + h * 3600 + m * 60 + s)
    with (h * 3600 + m * 60 + s + (jd + rd) * 86400) by lia.
  rewrite Z.div_add by lia.
  rewrite Z.div_small by lia; lia.
Qed.

Lemma session_loop_sessions n user_id user_segment jd ab_group days_range
    all_events w :
  returns (session_loop n user_id user_segment (to_datetime jd) ab_group
             days_range all_events) w
    (fun events => exists sessions,
       events = (all_events ++ List.concat sessions)%list /\
       (List.length sessions <= n)%nat /\
       Forall (session_of_user (clock w) user_id user_segment jd ab_group
                 days_range) sessions).
Proof.
  revert w all_events; induction n as [|n IH]; intros w all_events;
    cbn [session_loop].
  - apply returns_ret; exists []; cbn; rewrite app_nil_r; auto.
  - eapply returns_bind; [apply datetime_now_returns|].
    intros now w1 Hf1 [i ->]; cbv zeta; rewrite date_of_to_datetime.
    destruct (Z.leb_spec (Z.min days_range (date_of (clock w i) - jd)) 0)
      as [Hneg|Hpos].
    + eapply returns_weaken; [apply IH|].
      intros events (sessions & -> & Hlen & Hall).
      exists sessions; repeat split; [lia|].
      destruct Hf1 as (_ & _ & _ & <- & _); exact Hall.
    + eapply returns_bind; [apply randint_returns; lia|].
      intros rd w2 Hf2 Hrd.
      eapply returns_bind; [apply hourly_choice_returns|].
      intros hour w3 Hf3 Hhour.
      eapply returns_bind; [apply randint_returns; lia|].
      intros minute w4 Hf4 Hminute.
      eapply returns_bind; [apply randint_returns; lia|].
      intros second w5 Hf5 Hsecond.
      eapply returns_bind;
        [apply returns_conj;
         [apply generate_user_session_returns
         |apply generate_user_session_fields]|].
      intros s w6 Hf6 [Hpost Hfields].
      eapply returns_weaken; [apply IH|].
      intros events (sessions & -> & Hlen & Hall).
      exists (s :: sessions); cbn [List.concat List.length].
      rewrite <- app_assoc; repeat split; [lia|].
      assert (Hf : frame w w6) by eauto 10 using frame_trans.
      destruct Hf as (_ & _ & _ & Hc & _); rewrite Hc in Hall.
      constructor; [|exact Hall].
      cbv beta in Hrd, Hhour, Hminute, Hsecond.
      exists (replace_hms (to_datetime jd + timedelta_days rd) hour minute
                second), i.
      rewrite date_of_session_start by assumption.
      repeat split; try assumption; lia.
Qed.

Lemma events_for_user_sessions user low high days_range all_events w :
  low < high ->
  returns (events_for_user user (low, high) days_range all_events) w
    (fun events => exists sessions,
       events = (all_events ++ List.concat sessions)%list /\
       (List.length sessions <= Z.to_nat (high - 1))%nat /\
       Forall (session_of_user (clock w) (Users.user_id user)
                 (default_to (Users.user_segment user) "medium_engagement")
                 (Users.join_date user)
                 (ab_group_of (py_hash w) (Users.user_id user)) days_range)
         sessions).
Proof.
  intros Hlt; unfold returns, events_for_user; cbv zeta.
  unfold bind at 1; rewrite assign_ab_group_ok.
  unfold bind at 1, randint; cbn [fst snd].
  destruct (Z.ltb_spec low high); [|lia].
  cbn [np_next bind ret].
  set (n := low + np_table w (np_seed w) (np_pos w) mod (high - low)).
  apply returns_from; [apply frame_np_step|].
  eapply returns_weaken; [apply session_loop_sessions|].
  intros events (sessions & -> & Hlen & Hall).
  exists sessions; repeat split; [|exact Hall].
  pose proof (Z.mod_pos_bound (np_table w (np_seed w) (np_pos w))
                (high - low)); unfold n in Hlen; lia.
Qed.

Lemma session_of_user_session_of h c users_df user days_range s :
  In user users_df ->
  session_of_user c (Users.user_id user)
    (default_to (Users.user_segment user) "medium_engagement")
    (Users.join_date user) (ab_group_of h (Users.user_id user)) days_range s ->
  session_of h c users_df days_range s.
Proof.
  intros Hin (start & i & H1 & H2 & H3 & H4 & H5).
  exists user, start, i; auto 10.
Qed.

Lemma user_loop_sessions all_users users low high days_range all_events w :
  low < high -> incl users all_users ->
  returns (user_loop users (low, high) days_range all_events) w
    (fun events => exists sessions,
       events = (all_events ++ List.concat sessions)%list /\
       (List.length sessions
          <= List.length users * Z.to_nat (high - 1))%nat /\
       Forall (session_of (py_hash w) (clock w) all_users days_range)
         sessions).
Proof.
  intros Hlt; revert w all_events.
  induction users as [|user users IH]; intros w all_events Hincl;
    cbn [user_loop].
  - apply returns_ret; exists []; cbn; rewrite app_nil_r; auto.
  - eapply returns_bind; [apply events_for_user_sessions; exact Hlt|].
    intros events1 w1 Hf (s1 & -> & Hlen1 & Hall1).
    eapply returns_weaken;
      [apply IH; intros u Hu; apply Hincl; now right|].
    intros events (s2 & -> & Hlen2 & Hall2).
    exists (s1 ++ s2)%list; rewrite concat_app, app_assoc.
    destruct Hf as (_ & _ & _ & Hc & Hh); rewrite Hc, Hh in Hall2.
    repeat split.
    + rewrite length_app; cbn [List.length]; lia.
    + apply Forall_app; split; [|exact Hall2].
      eapply Forall_impl; [|exact Hall1].
      intros s; apply session_of_user_session_of, Hincl; now left.
Qed.

(** The event table is the sessions of the users, put together and sorted
    by instant. *)
Lemma generate_events_for_users_sessions users_df events_per_user_range
    days_range w :
  fst (default_to events_per_user_range (1, 5))
    < snd (default_to events_per_user_range (1, 5)) ->
  returns
    (generate_events_for_users users_df events_per_user_range days_range) w
    (fun events => exists sessions,
       events = sort_by event_timestamp (List.concat sessions) /\
       (List.length sessions
          <= List.length users_df
             * Z.to_nat
                 (snd (default_to events_per_user_range (1%Z, 5%Z)) - 1))%nat /\
       Forall (session_of (py_hash w) (clock w) users_df
                 (default_to days_range 30)) sessions).
Proof.
  unfold generate_events_for_users; cbv zeta.
  destruct (default_to events_per_user_range (1, 5)) as [low high].
  cbn [fst snd]; intros Hlt.
  eapply returns_bind;
    [apply user_loop_sessions with (all_users := users_df);
     [exact Hlt|apply incl_refl]|].
  intros events w1 _ (sessions & -> & Hlen & Hall); cbn [app].
  destruct (List.concat sessions) as [|e l] eqn:E.
  - apply returns_ret; exists sessions; rewrite E; auto.
  - cbn [List.length Nat.ltb Nat.leb]; unfold sort_values.
    apply returns_ret; exists sessions; rewrite E; auto.
Qed.

End TableLemmas.

Section TableHelpers.

Import Events.

Lemma date_of_lower d t : d <= date_of t -> to_datetime d <= t.
Proof.
  unfold date_of, to_datetime, SECONDS_PER_DAY; intros H.
  pose proof (Z.mul_div_le t 86400 ltac:(lia)); nia.
Qed.

Lemma date_of_upper d t : date_of t <= d -> t < to_datetime (d + 1).
Proof.
  unfold date_of, to_datetime, SECONDS_PER_DAY; intros H.
  pose proof (Z.mul_succ_div_gt t 86400 ltac:(lia)); nia.
Qed.

(** The events of a session: the caller's user and group on each, one
    session identifier, a [page_view] at the start first, and every
    instant within 111 seconds of the start. *)
Lemma session_post_events user_id user_segment session_start ab_group s :
  session_post user_id user_segment session_start ab_group s ->
  (exists first rest,
      s = first :: rest /\ event_type first = "page_view" /\
      event_timestamp first = session_start) /\
  (exists sid,
      Forall (fun e => Events.user_id e = user_id /\ session_id e = sid /\
                       Events.ab_group e = ab_group) s) /\
  Forall (fun e => session_start <= event_timestamp e <= session_start + 111)
    s.
Proof.
  intros (n & sid & i0 & i1 & i2 & i3 & i4 & q & item & len & t1 & t2 & t3
          & t4 & u1 & u2 & u3 & u4 & H1 & H2 & H3 & H4 & _ & _ & _ & _ & _
          & Hn & ->).
  set (draws := combine [u1; u2; u3; u4]
                  (composed_rates user_segment ab_group)) in *.
  pose proof (funnel_depth_le draws) as Hle.
  change (List.length draws) with 4%nat in Hle.
  assert (Hc : (n = 1 \/ n = 2 \/ n = 3 \/ n = 4 \/ n = 5)%nat) by lia.
  clear Hn Hle draws.
  destruct Hc as [->|[->|[->|[->| ->]]]]; cbn [firstn funnel];
    (split; [eexists _, _; repeat split|split; [exists sid|]]);
    repeat (constructor; [cbn; repeat split; lia|]); constructor.
Qed.

Lemma session_of_events h c users_df days_range s :
  session_of h c users_df days_range s ->
  Forall (event_of h c users_df days_range) s.
Proof.
  intros (user & start & i & Hin & Hpost & Hfields & Hlo & Hhi & Hnow).
  apply session_post_events in Hpost.
  destruct Hpost as (_ & (sid & Hids) & Htimes).
  apply date_of_lower in Hlo.
  apply date_of_upper in Hhi.
  apply date_of_upper in Hnow.
  rewrite Forall_forall in *; intros e He.
  destruct (Hids e He) as (Hu & _ & Hg).
  pose proof (Htimes e He); pose proof (Hfields e He).
  exists user, i; repeat split; try assumption; lia.
Qed.

Lemma sessions_events h c users_df days_range sessions :
  Forall (session_of h c users_df days_range) sessions ->
  Forall (event_of h c users_df days_range)
    (sort_by event_timestamp (List.concat sessions)).
Proof.
  intros H; apply sort_by_Forall, Forall_concat.
  eapply Forall_impl; [|exact H]; apply session_of_events.
Qed.

Lemma filter_length_insert_by A (key : A -> Z) (f : A -> bool) x l :
  List.length (filter f (insert_by key x l))
    = List.length (filter f (x :: l)).
Proof.
  induction l as [|y l IH]; [reflexivity|]; cbn [insert_by].
  destruct (key x <=? key y); [reflexivity|].
  cbn [filter] in *; destruct (f y), (f x); cbn [List.length] in *; lia.
Qed.

Lemma filter_length_sort_by A (key : A -> Z) (f : A -> bool) l :
  List.length (filter f (sort_by key l)) = List.length (filter f l).
Proof.
  induction l as [|x l IH]; [reflexivity|]; cbn [sort_by].
  rewrite filter_length_insert_by; cbn [filter].
  destruct (f x); cbn [List.length]; lia.
Qed.

Lemma filter_filter_andb A (f g : A -> bool) l :
  filter f (filter g l) = filter (fun x => g x && f x) l.
Proof.
  induction l as [|x l IH]; [reflexivity|]; cbn [filter].
  destruct (g x); cbn [filter andb]; [destruct (f x)|]; now rewrite IH.
Qed.

Lemma filter_length_concat_le A (f g : A -> bool) (ls : list (list A)) :
  Forall (fun l => (List.length (filter f l) <= List.length (filter g l))%nat)
    ls ->
  (List.length (filter f (List.concat ls))
     <= List.length (filter g (List.concat ls)))%nat.
Proof.
  induction 1 as [|l ls Hl _ IH]; [apply Nat.le_refl|].
  cbn [List.concat]; rewrite !filter_app, !length_app; lia.
Qed.

Lemma length_concat_le A (ls : list (list A)) k :
  Forall (fun l => (List.length l <= k)%nat) ls ->
  (List.length (List.concat ls) <= k * List.length ls)%nat.
Proof.
  induction 1 as [|l ls Hl _ IH]; cbn [List.concat List.length]; [lia|].
  rewrite length_app; lia.
Qed.

Lemma session_of_cases h c users_df days_range s :
  session_of h c users_df days_range s ->
  exists ab (n : nat) session_id i0 i1 i2 i3 i4 query item len t0 t1 t2 t3 t4
         uid,
    (n = 1 \/ n = 2 \/ n = 3 \/ n = 4 \/ n = 5)%nat /\
    s = firstn n (funnel uid session_id ab i0 i1 i2 i3 i4 query item len t0
                    t1 t2 t3 t4).
Proof.
  intros (user & start & i & _ & Hpost & _).
  apply session_post_cases in Hpost.
  destruct Hpost as (n & sid & i0 & i1 & i2 & i3 & i4 & q & item & len & t1
                     & t2 & t3 & t4 & Hn & _ & _ & _ & _ & ->).
  eexists _, n, sid, i0, i1, i2, i3, i4, q, item, len, _, t1, t2, t3, t4, _.
  split; [exact Hn|reflexivity].
Qed.

End TableHelpers.

Section SessionExtras.

Import Events.

(** Every session starts with a [page_view] event at [session_start];
    all its events carry the caller's user identifier and A/B group and
    one common session identifier, and none is more than 111 seconds
    after [session_start]. *)
Theorem generate_user_session_identity
    (user_id user_segment : string) (session_start : Z) (ab_group : string)
    (w : World) :
  exists events w',
    generate_user_session user_id user_segment session_start ab_group w
      = Ok (events, w') /\
    (exists first rest,
        events = first :: rest /\ event_type first = "page_view" /\
        event_timestamp first = session_start) /\
    (exists sid,
        Forall (fun e => Events.user_id e = user_id /\ session_id e = sid /\
                         Events.ab_group e = ab_group) events) /\
    Forall (fun e => session_start <= event_timestamp e <= session_start + 111)
      events.
Proof.
  destruct (generate_user_session_returns user_id user_segment session_start
              ab_group w) as (events & w' & Hrun & _ & Hpost).
  exists events, w'; split; [exact Hrun|].
  now apply session_post_events in Hpost.
Qed.

(** In every session the optional fields follow the event type: a
    [page_view] carries none; a [search] carries only a query, one of the
    twenty of [_generate_search_query]; an [item_view] and a [chat_click]
    carry only an item identifier; a [chat_send] carries an item
    identifier and a message length from 10 to 199. *)
Theorem generate_user_session_optional_fields
    (user_id user_segment : string) (session_start : Z) (ab_group : string)
    (w : World) :
  exists events w',
    generate_user_session user_id user_segment session_start ab_group w
      = Ok (events, w') /\
    Forall event_fields_ok events.
Proof.
  destruct (generate_user_session_fields user_id user_segment session_start
              ab_group w) as (events & w' & Hrun & _ & Hfields).
  eauto.
Qed.

End SessionExtras.

Section TableExtras.

Import Events.

Variable users_df : list Users.User.
Variable events_per_user_range : option (Z * Z).
Variable days_range : option Z.
Variable w : World.

Let low := fst (default_to events_per_user_range (1, 5)).
Let high := snd (default_to events_per_user_range (1, 5)).


(** Every event of the table belongs to a user of the user table and
    carries the A/B group that the hash of its user identifier selects, so
    two events of one user never differ in their group. *)
Theorem event_table_ab_groups :
  low < high ->
  exists events w',
    generate_events_for_users users_df events_per_user_range days_range w
      = Ok (events, w') /\
    Forall (fun e =>
              (exists user, In user users_df /\
                            user_id e = Users.user_id user) /\
              ab_group e = ab_group_of (py_hash w) (user_id e)) events /\
    (forall e1 e2, In e1 events -> In e2 events ->
       user_id e1 = user_id e2 -> ab_group e1 = ab_group e2).
Proof.
  intros Hlt.
  destruct (generate_events_for_users_sessions users_df events_per_user_range
              days_range w Hlt)
    as (events & w' & Hrun & _ & sessions & -> & _ & Hall).
  apply sessions_events in Hall.
  eexists _, w'; split; [exact Hrun|].
  assert (H : Forall (fun e =>
              (exists user, In user users_df /\
                            user_id e = Users.user_id user) /\
              ab_group e = ab_group_of (py_hash w) (user_id e))
            (sort_by event_timestamp (List.concat sessions))).
  { eapply Forall_impl; [|exact Hall].
    intros e (user & i & Hin & Hu & Hg & _); rewrite Hu; eauto. }
  split; [exact H|].
  rewrite Forall_forall in H; intros e1 e2 H1 H2 Heq.
  destruct (H e1 H1) as [_ ->], (H e2 H2) as [_ ->]; now rewrite Heq.
Qed.

(** No event of the table is earlier than the join date of its user, and
    every event is less than 112 seconds past the end of the last day of
    the user's range ([join_date + days_range]) and less than 112 seconds
    past the end of the day some reading of the clock shows. *)
Theorem event_table_time_window :
  low < high ->
  exists events w',
    generate_events_for_users users_df events_per_user_range days_range w
      = Ok (events, w') /\
    Forall (fun e => exists user i,
              In user users_df /\ user_id e = Users.user_id user /\
              to_datetime (Users.join_date user) <= event_timestamp e /\
              event_timestamp e
                < to_datetime (Users.join_date user
                               + default_to days_range 30 + 1) + 112 /\
              event_timestamp e
                < to_datetime (date_of (clock w i) + 1) + 112) events.
Proof.
  intros Hlt.
  destruct (generate_events_for_users_sessions users_df events_per_user_range
              days_range w Hlt)
    as (events & w' & Hrun & _ & sessions & -> & _ & Hall).
  apply sessions_events in Hall.
  eexists _, w'; split; [exact Hrun|].
  eapply Forall_impl; [|exact Hall].
  intros e (user & i & Hin & Hu & _ & _ & H1 & H2 & H3).
  exists user, i; auto.
Qed.

(** The funnel counts the dashboard script takes from the table never go
    up from one stage to the next, so no conversion rate it computes is
    above 100 percent. *)
Theorem event_table_funnel_counts :
  low < high ->
  exists events w',
    generate_events_for_users users_df events_per_user_range days_range w
      = Ok (events, w') /\
    non_increasing (map snd (funnel_data events)).
Proof.
  intros Hlt.
  destruct (generate_events_for_users_sessions users_df events_per_user_range
              days_range w Hlt)
    as (events & w' & Hrun & _ & sessions & -> & _ & Hall).
  eexists _, w'; split; [exact Hrun|].
  cbn [funnel_data funnel_order map snd non_increasing]; unfold value_count.
  rewrite !filter_length_sort_by.
  repeat split; apply filter_length_concat_le;
    (eapply Forall_impl; [|exact Hall]); intros s Hs;
    apply session_of_cases in Hs;
    destruct Hs as (ab & n & sid & i0 & i1 & i2 & i3 & i4 & q & item & len
                    & t0 & t1 & t2 & t3 & t4 & uid & Hn & ->);
    destruct Hn as [->|[->|[->|[->| ->]]]]; cbn; lia.
Qed.

(** In each group the dashboard script counts no more [chat_click] events
    than [item_view] events. *)
Theorem event_table_ab_counts (group : string) :
  low < high ->
  exists events w',
    generate_events_for_users users_df events_per_user_range days_range w
      = Ok (events, w') /\
    (snd (ab_counts events group) <= fst (ab_counts events group))%nat.
Proof.
  intros Hlt.
  destruct (generate_events_for_users_sessions users_df events_per_user_range
              days_range w Hlt)
    as (events & w' & Hrun & _ & sessions & -> & _ & Hall).
  eexists _, w'; split; [exact Hrun|].
  unfold ab_counts; cbv zeta; cbn [fst snd].
  rewrite !filter_filter_andb, !filter_length_sort_by.
  apply filter_length_concat_le.
  eapply Forall_impl; [|exact Hall]; intros s Hs.
  apply session_of_cases in Hs.
  destruct Hs as (ab & n & sid & i0 & i1 & i2 & i3 & i4 & q & item & len
                  & t0 & t1 & t2 & t3 & t4 & uid & Hn & ->).
  destruct Hn as [->|[->|[->|[->| ->]]]]; cbn;
    destruct (String.eqb ab "control"), (String.eqb ab "treatment"),
      (String.eqb ab group); cbn; lia.
Qed.

(** The table holds at most five events for each of at most [high - 1]
    sessions of each user. *)
Theorem event_table_size :
  low < high ->
  exists events w',
    generate_events_for_users users_df events_per_user_range days_range w
      = Ok (events, w') /\
    (List.length events
       <= 5 * (List.length users_df * Z.to_nat (high - 1)))%nat.
Proof.
  intros Hlt.
  destruct (generate_events_for_users_sessions users_df events_per_user_range
              days_range w Hlt)
    as (events & w' & Hrun & _ & sessions & -> & Hlen & Hall).
  eexists _, w'; split; [exact Hrun|].
  rewrite sort_by_length.
  assert (H5 : Forall (fun s : list Event => (List.length s <= 5)%nat)
                 sessions).
  { eapply Forall_impl; [|exact Hall]; intros s Hs.
    apply session_of_cases in Hs.
    destruct Hs as (ab & n & sid & i0 & i1 & i2 & i3 & i4 & q & item & len
                    & t0 & t1 & t2 & t3 & t4 & uid & Hn & ->).
    destruct Hn as [->|[->|[->|[->| ->]]]]; cbn; lia. }
  apply length_concat_le in H5; fold high in Hlen; nia.
Qed.

(** With users in the table and an empty range of session counts
    ([high <= low]), [generate_events_for_users] raises the [ValueError]
    of [np.random.randint]. *)
Theorem event_table_empty_range_raises :
  users_df <> [] -> high <= low ->
  generate_events_for_users users_df events_per_user_range days_range w
    = Raise (ValueError "low >= high").
Proof.
  unfold low, high, generate_events_for_users; cbv zeta.
  destruct (default_to events_per_user_range (1, 5)) as [lo hi].
  cbn [fst snd]; intros Hne Hle.
  destruct users_df as [|user rest]; [congruence|].
  cbn [user_loop]; unfold bind at 1 2, events_for_user; cbv zeta.
  unfold bind at 1; rewrite assign_ab_group_ok.
  unfold bind at 1, randint; cbn [fst snd].
  destruct (Z.ltb_spec lo hi); [lia|reflexivity].
Qed.

End TableExtras.

(** * Further properties of the user table *)

Section UserExtras.

Import Users.

Lemma generate_user_row start_date end_date w :
  0 <= days_between_instants end_date start_date ->
  returns (generate_user start_date end_date) w
    (fun user =>
       user_row_ok start_date end_date user /\
       date_of start_date <= join_date user <= date_of end_date).
Proof.
  intros Hdays; unfold generate_user; cbv zeta.
  eapply returns_bind; [apply uuid4_returns|]; intros id w1 _ _.
  eapply returns_bind; [apply randint_returns; lia|]; intros rd w2 _ Hrd.
  eapply returns_bind; [apply random_returns|]; intros u w3 _ _.
  eapply returns_bind; [apply fake_next_returns|]; intros loc w4 _ _.
  eapply returns_bind; [apply fake_next_returns|]; intros nm w5 _ _.
  eapply returns_bind;
    [apply choice_p_returns;
     [discriminate|apply Nat.le_refl|vm_compute; reflexivity]|].
  intros age w6 _ Hage.
  eapply returns_bind;
    [apply choice_p_returns;
     [discriminate|apply Nat.le_refl|vm_compute; reflexivity]|].
  intros dev w7 _ Hdev.
  apply returns_ret; cbv beta in *; unfold user_row_ok, age_groups, device_types.
  cbn [join_date created_at age_group device_type user_segment].
  split; [|apply join_date_in_range; exact Hrd].
  repeat split; try assumption.
  exists rd; split; [lia|reflexivity].
Qed.

(** The rows of [generate_users] once the two dates are fixed. *)
Lemma generate_users_loop_returns num_users start_date end_date w :
  0 < num_users ->
  0 <= days_between_instants end_date start_date ->
  returns
    (users <- for_range_append (Z.to_nat num_users)
                (generate_user start_date end_date) [] ;;
     sort_values "join_date" join_date users) w
    (fun df =>
       List.length df = Z.to_nat num_users /\
       StronglySorted by_join_date df /\
       Forall (fun user =>
                 user_row_ok start_date end_date user /\
                 date_of start_date <= join_date user <= date_of end_date)
         df).
Proof.
  intros Hn Hdays.
  eapply returns_bind.
  - apply for_range_append_returns
      with (P := fun user =>
                   user_row_ok start_date end_date user /\
                   date_of start_date <= join_date user <= date_of end_date).
    + intros w' _; now apply generate_user_row.
    + constructor.
  - intros users w3 _ [Hlen Hall]; cbn [List.length Nat.add] in Hlen.
    destruct users as [|user users]; [cbn in Hlen; lia|].
    apply returns_ret; repeat split.
    + now rewrite sort_by_length.
    + apply sort_by_sorted.
    + now apply sort_by_Forall.
Qed.

(** For a positive count and an end date not before the start date,
    [generate_users] returns exactly that many rows, in ascending order of
    join date, each joined on a day from the day of [start_date] to the
    day of [end_date]. *)
Theorem generate_users_table
    (num_users start_date end_date : Z) (w : World) :
  0 < num_users ->
  start_date <= end_date ->
  exists df w',
    generate_users (Some num_users) (Some start_date) (Some end_date) w
      = Ok (df, w') /\
    List.length df = Z.to_nat num_users /\
    StronglySorted by_join_date df /\
    Forall (fun user =>
              date_of start_date <= join_date user <= date_of end_date) df.
Proof.
  intros Hn Hle.
  assert (Hdays : 0 <= days_between_instants end_date start_date).
  { unfold days_between_instants, SECONDS_PER_DAY.
    apply Z.div_pos; lia. }
  destruct (generate_users_loop_returns start_date end_date w Hn Hdays)
    as (df & w' & Hrun & _ & Hlen & Hsorted & Hall).
  exists df, w'; repeat split; try assumption.
  eapply Forall_impl; [|exact Hall]; cbv beta; tauto.
Qed.

(** Every row [generate_users] returns was created a whole number of days
    after [start_date] (so at the time of day of [start_date]), joined on
    the day of its creation, has one of the five age groups and one of
    the two device types, and has no segment yet. *)
Theorem generate_users_row_fields
    (num_users start_date end_date : Z) (w : World) :
  0 < num_users ->
  start_date <= end_date ->
  exists df w',
    generate_users (Some num_users) (Some start_date) (Some end_date) w
      = Ok (df, w') /\
    Forall (user_row_ok start_date end_date) df.
Proof.
  intros Hn Hle.
  assert (Hdays : 0 <= days_between_instants end_date start_date).
  { unfold days_between_instants, SECONDS_PER_DAY.
    apply Z.div_pos; lia. }
  destruct (generate_users_loop_returns start_date end_date w Hn Hdays)
    as (df & w' & Hrun & _ & _ & _ & Hall).
  exists df, w'; split; [exact Hrun|].
  eapply Forall_impl; [|exact Hall]; cbv beta; tauto.
Qed.

Lemma generate_users_default_returns num_users w :
  0 < num_users ->
  clock w (clock_pos w) <= clock w (S (clock_pos w)) ->
  returns (generate_users (Some num_users) None None) w
    (fun df =>
       List.length df = Z.to_nat num_users /\
       StronglySorted by_join_date df /\
       Forall (fun user =>
                 user_segment user = None /\
                 date_of (clock w (clock_pos w)) - 90 <= join_date user
                   <= date_of (clock w (S (clock_pos w)))) df).
Proof.
  intros Hn Hclock.
  set (c0 := clock w (clock_pos w)) in *.
  set (c1 := clock w (S (clock_pos w))) in *.
  assert (Hdays : 0 <= days_between_instants c1 (c0 - timedelta_days 90)).
  { unfold days_between_instants, timedelta_days, SECONDS_PER_DAY.
    apply Z.div_pos; lia. }
  assert (H90 : date_of (c0 - timedelta_days 90) = date_of c0 - 90).
  { unfold date_of, timedelta_days, SECONDS_PER_DAY.
    replace (c0 - 90 * 86400) with (c0 + (-90) * 86400) by lia.
    rewrite Z.div_add by lia; lia. }
  unfold generate_users, returns; cbv zeta; cbn [default_to].
  cbn [bind datetime_now ret]; fold c0 c1.
  match goal with
  | |- exists a w', ?m ?w1 = _ /\ _ =>
      destruct (generate_users_loop_returns (c0 - timedelta_days 90) c1 w1
                  Hn Hdays)
        as (df & w' & Hrun & Hf & Hlen & Hsorted & Hall)
  end.
  exists df, w'; split; [exact Hrun|]; split.
  - eapply frame_trans; [|exact Hf]; repeat split.
  - repeat split; try assumption.
    eapply Forall_impl; [|exact Hall]; cbv beta.
    intros user ((_ & _ & _ & _ & Hseg) & Hrange); rewrite H90 in Hrange.
    split; [exact Hseg|exact Hrange].
Qed.

(** Called without dates, for a positive count and a clock that does not
    go back between its two readings, [generate_users] returns exactly
    that many rows in ascending order of join date, each joined within
    the 90 days before the day of the first reading or on a later day up
    to the day of the second. *)
Theorem generate_users_default_range (num_users : Z) (w : World) :
  0 < num_users ->
  clock w (clock_pos w) <= clock w (S (clock_pos w)) ->
  exists df w',
    generate_users (Some num_users) None None w = Ok (df, w') /\
    List.length df = Z.to_nat num_users /\
    StronglySorted by_join_date df /\
    Forall (fun user =>
              date_of (clock w (clock_pos w)) - 90 <= join_date user
                <= date_of (clock w (S (clock_pos w)))) df.
Proof.
  intros Hn Hclock.
  destruct (generate_users_default_returns w Hn Hclock)
    as (df & w' & Hrun & _ & Hlen & Hsorted & Hall).
  exists df, w'; repeat split; try assumption.
  eapply Forall_impl; [|exact Hall]; cbv beta; tauto.
Qed.

(** For a positive count and an end date before the start date,
    [generate_users] raises the [ValueError] of [np.random.randint]. *)
Theorem generate_users_reversed_range_raises
    (num_users start_date end_date : Z) (w : World) :
  0 < num_users ->
  end_date < start_date ->
  generate_users (Some num_users) (Some start_date) (Some end_date) w
    = Raise (ValueError "low >= high").
Proof.
  intros Hn Hlt.
  assert (Hdays : days_between_instants end_date start_date + 1 <= 0).
  { unfold days_between_instants, SECONDS_PER_DAY.
    pose proof (Z.div_lt_upper_bound (end_date - start_date) 86400 0
                  ltac:(lia) ltac:(lia)); lia. }
  unfold generate_users; cbv zeta; cbn [default_to].
  destruct (Z.to_nat num_users) as [|n] eqn:E; [lia|].
  cbn [bind ret for_range_append]; unfold generate_user; cbv zeta.
  cbn [bind uuid4]; unfold randint.
  destruct (Z.ltb_spec 0 (days_between_instants end_date start_date + 1));
    [lia|reflexivity].
Qed.

Lemma segment_of_cases row :
  segment_of row = "medium_engagement" \/ segment_of row = "low_engagement".
Proof.
  rewrite segment_of_spec; unfold engagement_score_spec.
  destruct (verified_neighborhood row);
    repeat (destruct (String.eqb (age_group row) _);
            [vm_compute; auto|]);
    vm_compute; auto.
Qed.

Lemma generate_user_segments_never_high_aux df :
  Forall segmented (generate_user_segments df).
Proof.
  rewrite generate_user_segments_map, Forall_map, Forall_forall.
  intros row _; unfold segmented; cbn [user_segment set_user_segment].
  destruct (segment_of_cases row) as [-> | ->]; auto.
Qed.

(** Whatever the rows, [generate_user_segments] gives each of them the
    segment [medium_engagement] or [low_engagement]: no score of the rule
    exceeds 0.7, and [high_engagement] is never assigned. *)
Theorem generate_user_segments_never_high (df : list User) :
  Forall segmented (generate_user_segments df).
Proof. exact (generate_user_segments_never_high_aux df). Qed.

(** For a user of a table [generate_user_segments] returned, every
    probability [generate_user_session] compares a draw with lies between
    0 and 1, whatever the A/B group. *)
Theorem segmented_users_rates_within_unit
    (df : list User) (user : User) (ab_group : string) (r : Q) :
  In user (generate_user_segments df) ->
  In r (composed_rates
          (default_to (user_segment user) "medium_engagement") ab_group) ->
  (0 <= r /\ r <= 1)%Q.
Proof.
  intros Hin.
  pose proof (generate_user_segments_never_high_aux df) as Hall.
  rewrite Forall_forall in Hall.
  destruct (Hall user Hin) as [-> | ->]; cbn [default_to];
    rewrite composed_rates_eq;
    destruct (String.eqb ab_group "treatment"); intros Hr;
    repeat (destruct Hr as [<-|Hr]; [unfold Qle; cbn; lia|]);
    destruct Hr.
Qed.

End UserExtras.

(** * The pipeline of [generate_data] *)

Section PipelineExtras.

Lemma generate_user_segments_sorted df :
  StronglySorted by_join_date df ->
  StronglySorted by_join_date (Users.generate_user_segments df).
Proof.
  rewrite generate_user_segments_map.
  induction 1 as [|row df Hs IH Hall]; cbn [map]; constructor; [exact IH|].
  rewrite Forall_map; eapply Forall_impl; [|exact Hall].
  intros other H; exact H.
Qed.

Lemma Events_init_returns seed w :
  returns (Events.init seed) w (fun _ => True).
Proof. eexists _, _; split; [reflexivity|]; repeat split. Qed.

End PipelineExtras.

(** * The further properties at concrete inputs *)

Section Witnesses.

Import Events.


Lemma event_table_ab_groups_witness :
  exists events w',
    generate_events_for_users [user_joined_earlier] None None example_world
      = Ok (events, w') /\
    Forall (fun e =>
              (exists user, In user [user_joined_earlier] /\
                            user_id e = Users.user_id user) /\
              ab_group e = ab_group_of (py_hash example_world) (user_id e))
      events /\
    (forall e1 e2, In e1 events -> In e2 events ->
       user_id e1 = user_id e2 -> ab_group e1 = ab_group e2).
Proof. apply event_table_ab_groups; reflexivity. Defined.

Lemma event_table_time_window_witness :
  exists events w',
    generate_events_for_users [user_joined_earlier] None None example_world
      = Ok (events, w') /\
    Forall (fun e => exists user i,
              In user [user_joined_earlier] /\
              user_id e = Users.user_id user /\
              to_datetime (Users.join_date user) <= event_timestamp e /\
              event_timestamp e
                < to_datetime (Users.join_date user + 30 + 1) + 112 /\
              event_timestamp e
                < to_datetime (date_of (clock example_world i) + 1) + 112)
      events.
Proof. apply (event_table_time_window _ None None); reflexivity. Defined.

Lemma event_table_funnel_counts_witness :
  exists events w',
    generate_events_for_users [user_joined_earlier] None None example_world
      = Ok (events, w') /\
    non_increasing (map snd (funnel_data events)).
Proof. apply event_table_funnel_counts; reflexivity. Defined.

Lemma event_table_ab_counts_witness :
  exists events w',
    generate_events_for_users [user_joined_earlier] None None example_world
      = Ok (events, w') /\
    (snd (ab_counts events "treatment")
       <= fst (ab_counts events "treatment"))%nat.
Proof. apply event_table_ab_counts; reflexivity. Defined.

Lemma event_table_size_witness :
  exists events w',
    generate_events_for_users [user_joined_earlier] None None example_world
      = Ok (events, w') /\
    (List.length events <= 5 * (1 * Z.to_nat (5 - 1)))%nat.
Proof.
  apply (event_table_size [user_joined_earlier] None None example_world).
  reflexivity.
Defined.

Lemma event_table_empty_range_raises_witness :
  generate_events_for_users [user_joined_earlier] (Some (5, 5)) None
    example_world
    = Raise (ValueError "low >= high").
Proof.
  apply event_table_empty_range_raises; [discriminate|cbn; lia].
Defined.

Lemma generate_users_table_witness :
  exists df w',
    Users.generate_users (Some 3) (Some 0) (Some 864000) example_world
      = Ok (df, w') /\
    List.length df = 3%nat /\
    StronglySorted by_join_date df /\
    Forall (fun user => 0 <= Users.join_date user <= 10) df.
Proof. apply generate_users_table; lia. Defined.

Lemma generate_users_row_fields_witness :
  exists df w',
    Users.generate_users (Some 3) (Some 0) (Some 864000) example_world
      = Ok (df, w') /\
    Forall (user_row_ok 0 864000) df.
Proof. apply generate_users_row_fields; lia. Defined.

Lemma generate_users_default_range_witness :
  exists df w',
    Users.generate_users (Some 3) None None example_world = Ok (df, w') /\
    List.length df = 3%nat /\
    StronglySorted by_join_date df /\
    Forall (fun user => 20000 - 90 <= Users.join_date user <= 20000) df.
Proof.
  apply generate_users_default_range; [lia|cbn; lia].
Defined.

Lemma generate_users_reversed_range_raises_witness :
  Users.generate_users (Some 3) (Some 864000) (Some 0) example_world
    = Raise (ValueError "low >= high").
Proof. apply generate_users_reversed_range_raises; lia. Defined.

Lemma segmented_users_rates_within_unit_witness :
  (0 <= 0.25 * 1.0 * 1.4 /\ 0.25 * 1.0 * 1.4 <= 1)%Q.
Proof.
  apply segmented_users_rates_within_unit
    with (df := [user_joined_earlier])
         (user := Users.set_user_segment user_joined_earlier
                    "medium_engagement")
         (ab_group := "treatment").
  - left; reflexivity.
  - right; right; left; reflexivity.
Defined.

End Witnesses.

(** * The event table as the loader converts it *)

Section LoadExtras.

Import Events.

Lemma fillna_message_length_fields (df : list Event) :
  Forall event_fields_ok df ->
  Forall (fun e =>
            (event_type e = "chat_send" /\
             exists len, message_length e = Some len /\ 10 <= len < 200) \/
            (event_type e <> "chat_send" /\
             (message_length e = Some 0 \/ message_length e = None)))
    (fillna_message_length df).
Proof.
  intros Hall; unfold fillna_message_length.
  destruct (existsb has_message_length df).
  - rewrite Forall_map; eapply Forall_impl; [|exact Hall].
    intros e [H|[H|[H|H]]]; cbn [event_type message_length].
    + destruct H as (Ht & _ & _ & ->); right; rewrite Ht.
      split; [discriminate|now left].
    + destruct H as (Ht & _ & _ & ->); right; rewrite Ht.
      split; [discriminate|now left].
    + destruct H as (Ht & _ & _ & ->); right.
      split; [destruct Ht as [-> | ->]; discriminate|now left].
    + destruct H as (Ht & _ & _ & len & -> & Hlen); left; eauto.
  - eapply Forall_impl; [|exact Hall].
    intros e [H|[H|[H|H]]].
    + destruct H as (Ht & _ & _ & ->); right; rewrite Ht.
      split; [discriminate|now right].
    + destruct H as (Ht & _ & _ & ->); right; rewrite Ht.
      split; [discriminate|now right].
    + destruct H as (Ht & _ & _ & ->); right.
      split; [destruct Ht as [-> | ->]; discriminate|now right].
    + destruct H as (Ht & _ & _ & len & -> & Hlen); left; eauto.
Qed.

(** After the loader's conversion of the message length, an event of a
    generated table has a length from 10 to 199 when it is a [chat_send],
    and the length 0 (or none, when the table has no [chat_send] at all)
    when it is not: the fill value 0 never meets a real length. *)
Theorem loaded_message_length
    (users_df : list Users.User) (events_per_user_range : option (Z * Z))
    (days_range : option Z) (w : World) :
  fst (default_to events_per_user_range (1, 5))
    < snd (default_to events_per_user_range (1, 5)) ->
  exists events w',
    generate_events_for_users users_df events_per_user_range days_range w
      = Ok (events, w') /\
    Forall (fun e =>
              (event_type e = "chat_send" /\
               exists len, message_length e = Some len /\ 10 <= len < 200) \/
              (event_type e <> "chat_send" /\
               (message_length e = Some 0 \/ message_length e = None)))
      (fillna_message_length events).
Proof.
  intros Hlt.
  destruct (generate_events_for_users_sessions users_df events_per_user_range
              days_range w Hlt)
    as (events & w' & Hrun & _ & sessions & -> & _ & Hall).
  apply sessions_events in Hall.
  eexists _, w'; split; [exact Hrun|].
  apply fillna_message_length_fields.
  eapply Forall_impl; [|exact Hall].
  intros e (user & i & _ & _ & _ & H & _); exact H.
Qed.

Lemma loaded_message_length_witness :
  exists events w',
    generate_events_for_users [user_joined_earlier] None None example_world
      = Ok (events, w') /\
    Forall (fun e =>
              (event_type e = "chat_send" /\
               exists len, message_length e = Some len /\ 10 <= len < 200) \/
              (event_type e <> "chat_send" /\
               (message_length e = Some 0 \/ message_length e = None)))
      (fillna_message_length events).
Proof. apply loaded_message_length; reflexivity. Defined.

End LoadExtras.

(** * The draws behind a session *)

Section SessionDraws.

Import Events.












End SessionDraws.

(** * The composed rates and the draws *)

Section RatesAndDraws.

Import Events.


End RatesAndDraws.

(** * The hash behind the A/B group *)

Section HashSalt.

Import Events.

(** C4, the claim as stated fails: the group of an identifier is not a
    function of the identifier alone.  Under two salts of the built-in
    string hash (here a hash of 1 and a hash of 51 for the identifier
    "u") the same identifier is assigned control and none. *)
Lemma assign_ab_group_depends_on_hash_salt :
  ~ (forall (w1 w2 : World) (user_id : string),
       value_of (assign_ab_group user_id w1)
         = value_of (assign_ab_group user_id w2)).
Proof.
  intros H.
  specialize
    (H example_world
       (mkWorld (np_table example_world) 42 0 (faker_table example_world)
          42 0 (entropy example_world) 0 (clock example_world) 0
          (fun s => 50 + Z.of_nat (String.length s)))
       "u").
  vm_compute in H; discriminate H.
Qed.

End HashSalt.

(** * The number of sessions of a user *)

Section SessionsPerUser.

Import Events.







End SessionsPerUser.

(** * The two tables of [generate_data] *)

Section PipelineTables.

Lemma bind_ok A B (m : M A) (k : A -> M B) w a w' :
  m w = Ok (a, w') -> bind m k w = k a w'.
Proof. intros H; unfold bind; now rewrite H. Qed.

(** For a positive count and a clock that does not go back between the
    two readings [generate_users] takes, [generate_data] builds a user
    table of exactly that many rows, in ascending order of join date and
    each with a segment, and an event table in ascending order of instant
    whose every event belongs to a user of the user table; it returns the
    two tables when the event table has an event, and raises [KeyError]
    at the report of the event types when no session was generated. *)
Theorem generate_data_tables (num_users : Z) (w : World) :
  0 < num_users ->
  clock w (clock_pos w) <= clock w (S (clock_pos w)) ->
  exists users_df w1 events_df w2,
    (_ <- Users.init (Some 42) ;;
     df <- Users.generate_users (Some num_users) None None ;;
     ret (Users.generate_user_segments df)) w = Ok (users_df, w1) /\
    List.length users_df = Z.to_nat num_users /\
    StronglySorted by_join_date users_df /\
    Forall segmented users_df /\
    (_ <- Events.init (Some 42) ;;
     Events.generate_events_for_users users_df (Some (2, 10)) (Some 30)) w1
      = Ok (events_df, w2) /\
    StronglySorted
      (fun a b => Events.event_timestamp a <= Events.event_timestamp b)
      events_df /\
    Forall (fun e => exists user,
              In user users_df /\ Events.user_id e = Users.user_id user)
      events_df /\
    generate_data (Some num_users) w =
      match events_df with
      | [] => Raise (KeyError "event_type")
      | _ :: _ => Ok ((users_df, events_df), w2)
      end.
Proof.
  intros Hn Hclock.
  set (wi := mkWorld (np_table w) 42 0 (faker_table w) 42 0 (entropy w)
               (entropy_pos w) (clock w) (clock_pos w) (py_hash w)).
  assert (Hinit : Users.init (Some 42) w = Ok (tt, wi)) by reflexivity.
  destruct (generate_users_default_returns wi Hn Hclock)
    as (df & w1 & Hgu & _ & Hlen & Hsorted & _).
  set (we := mkWorld (np_table w1) 42 0 (faker_table w1) (faker_seed w1)
               (faker_pos w1) (entropy w1) (entropy_pos w1) (clock w1)
               (clock_pos w1) (py_hash w1)).
  assert (Hinit2 : Events.init (Some 42) w1 = Ok (tt, we)) by reflexivity.
  destruct (generate_events_for_users_sessions
              (Users.generate_user_segments df) (Some (2, 10)) (Some 30) we
              ltac:(reflexivity))
    as (events & w2 & Hge & _ & sessions & Hev & _ & Hall).
  apply sessions_events in Hall; rewrite <- Hev in Hall.
  exists (Users.generate_user_segments df), w1, events, w2.
  split; [|split; [|split; [|split; [|split; [|split; [|split]]]]]].
  - erewrite bind_ok by exact Hinit; erewrite bind_ok by exact Hgu.
    reflexivity.
  - rewrite generate_user_segments_map, length_map; exact Hlen.
  - now apply generate_user_segments_sorted.
  - apply generate_user_segments_never_high_aux.
  - erewrite bind_ok by exact Hinit2; exact Hge.
  - rewrite Hev; apply sort_by_sorted.
  - eapply Forall_impl; [|exact Hall].
    intros e (user & i & Hin & Hu & _); eauto.
  - unfold generate_data; cbv zeta; cbn [default_to].
    erewrite bind_ok by exact Hinit; erewrite bind_ok by exact Hgu.
    assert (Hne : exists row rows,
               Users.generate_user_segments df = row :: rows).
    { destruct df as [|row rows]; [cbn in Hlen; lia|].
      rewrite generate_user_segments_map; cbn [map]; eauto. }
    destruct Hne as (row & rows & Hdf).
    rewrite Hdf; cbn [column bind ret]; rewrite <- Hdf.
    erewrite bind_ok by exact Hinit2; erewrite bind_ok by exact Hge.
    destruct events; reflexivity.
Qed.

Lemma generate_data_tables_witness :
  exists users_df w1 events_df w2,
    (_ <- Users.init (Some 42) ;;
     df <- Users.generate_users (Some 2) None None ;;
     ret (Users.generate_user_segments df)) example_world
      = Ok (users_df, w1) /\
    List.length users_df = 2%nat /\
    StronglySorted by_join_date users_df /\
    Forall segmented users_df /\
    (_ <- Events.init (Some 42) ;;
     Events.generate_events_for_users users_df (Some (2, 10)) (Some 30)) w1
      = Ok (events_df, w2) /\
    StronglySorted
      (fun a b => Events.event_timestamp a <= Events.event_timestamp b)
      events_df /\
    Forall (fun e => exists user,
              In user users_df /\ Events.user_id e = Users.user_id user)
      events_df /\
    generate_data (Some 2) example_world =
      match events_df with
      | [] => Raise (KeyError "event_type")
      | _ :: _ => Ok ((users_df, events_df), w2)
      end.
Proof. apply generate_data_tables; [lia|cbn; lia]. Defined.

End PipelineTables.
